(** * Airflow Prometheus exporter: the query layer and the metrics collector

    A shallow embedding of [airflow_prometheus_exporter/prometheus_exporter.py].

    - The orchestration store is four tables, each a list of rows.
    - Every SQLAlchemy query is a pure function from the store to its
      result rows, written clause by clause (filter, group_by, join,
      order_by, limit).
    - The session discipline ([session_scope], lazily executed queries) and
      the exceptions are threaded through a state-and-error monad whose
      state carries the store and the trace of session events.
    - [collect] is a generator: its run is the list of values it yielded,
      how it ended, and the final world.

    Timestamps are integers (microseconds since the epoch), a [timedelta]
    is their difference, and the float returned by [total_seconds] is
    idealised as the exact rational number of seconds. *)

From Stdlib Require Import ZArith QArith.
From stdpp Require Import base decidable option list strings.

Local Open Scope string_scope.
Local Open Scope Z_scope.
Local Open Scope list_scope.

(** ** Constants *)

Definition CANARY_DAG : string := "canary_dag".

(** [State.SUCCESS] and [State.QUEUED] of [airflow.utils.state]. *)
Module State.
Definition SUCCESS : string := "success".
Definition QUEUED : string := "queued".
End State.

(** ** The store: the four tables the exporter reads

    Nullable columns are options; the key columns are not nullable. *)

Module DagModel.
Record t := mk { dag_id : string; owners : option string }.
End DagModel.

Module DagRun.
Record t := mk {
    dag_id : string;
    state : option string;
    execution_date : Z;
    start_date : option Z;
    end_date : option Z }.
End DagRun.

Module TaskInstance.
Record t := mk {
    dag_id : string;
    task_id : string;
    execution_date : Z;
    state : option string;
    queue : option string;
    start_date : option Z;
    end_date : option Z;
    queued_dttm : option Z }.
End TaskInstance.

Module TaskFail.
Record t := mk { dag_id : string; task_id : string }.
End TaskFail.

Record Store := mkStore {
  dag : list DagModel.t;
  dag_run : list DagRun.t;
  task_instance : list TaskInstance.t;
  task_fail : list TaskFail.t }.

Definition empty_store : Store := mkStore [] [] [] [].

(** ** A small relational algebra, as SQL evaluates it *)

(** SQL [=] between nullable values: never true when a side is NULL. *)
Definition sql_eq {A} (a b : option A) : Prop :=
  match a, b with
  | Some x, Some y => x = y
  | _, _ => False
  end.

#[global] Instance sql_eq_dec {A} `{EqDecision A} (a b : option A) :
  Decision (sql_eq a b).
Proof. destruct a, b; simpl; apply _. Defined.

(** [GROUP BY key]: one group per distinct key (NULLs group together), in
    order of first appearance, with the rows of the group. *)
Definition group_by {A K} `{EqDecision K} (key : A → K) (l : list A)
  : list (K * list A) :=
  map (λ k, (k, filter (λ a, key a = k) l)) (remove_dups (map key l)).

(** ON clauses are binary predicates: let instance search see through
    their application. *)
#[global] Hint Extern 0 (Decision ((λ _, _) _ _)) =>
  progress (cbv beta) : typeclass_instances.

(** Inner join: the pairs of rows that satisfy the ON clause. *)
Definition join {A B} (on : A → B → Prop) `{∀ a b, Decision (on a b)}
  (l : list A) (r : list B) : list (A * B) :=
  flat_map (λ a, map (pair a) (filter (on a) r)) l.

(** The non-NULL values of a column. *)
Definition non_null {A} (l : list (option A)) : list A := omap id l.

(** [max(col)] and [min(col)]: NULLs are skipped, NULL when nothing is left. *)
Definition sql_max (l : list (option Z)) : option Z :=
  match non_null l with
  | [] => None
  | x :: xs => Some (foldr Z.max x xs)
  end.

Definition sql_min (l : list (option Z)) : option Z :=
  match non_null l with
  | [] => None
  | x :: xs => Some (foldr Z.min x xs)
  end.

(** [count(col)]: the number of non-NULL values. *)
Definition sql_count {A} (l : list (option A)) : Z :=
  Z.of_nat (length (non_null l)).

(** [ORDER BY key DESC], as a stable insertion sort. *)
Fixpoint insert_desc {A} (key : A → Z) (a : A) (l : list A) : list A :=
  match l with
  | [] => [a]
  | b :: l' =>
      if decide (key b < key a)%Z then a :: b :: l'
      else b :: insert_desc key a l'
  end.

Definition order_by_desc {A} (key : A → Z) (l : list A) : list A :=
  foldr (insert_desc key) [] l.

(** ** Result rows of the eight queries *)

Module DagStateRow.
Record t := mk {
  dag_id : string; state : option string; count : Z; owners : option string }.
End DagStateRow.

Module DagDurationRow.
Record t := mk {
  dag_id : string; start_date : option Z; end_date : option Z }.
End DagDurationRow.

Module TaskStateRow.
Record t := mk {
  dag_id : string; task_id : string; state : option string;
  value : Z; owners : option string }.
End TaskStateRow.

Module TaskFailureRow.
Record t := mk { dag_id : string; task_id : string; count : Z }.
End TaskFailureRow.

Module TaskDurationRow.
Record t := mk {
  dag_id : string; task_id : string;
  start_date : option Z; end_date : option Z;
  execution_date : option Z }.
End TaskDurationRow.

Module DagDelayRow.
Record t := mk {
  dag_id : string; execution_date : Z; start_date : option Z }.
End DagDelayRow.

Module TaskDelayRow.
Record t := mk {
  queue : option string; execution_date : Z;
  queued_dttm : option Z; start_date : option Z }.
End TaskDelayRow.

(** ** The queries, as functions of the store *)

(** *** DAG related metrics *)

(** [get_dag_state_info]: the grouped subquery, then the join with [DagModel]. *)
Definition dag_status_query (s : Store) : list (string * option string * Z) :=
  map (λ '((d, st), rows), (d, st, sql_count (map DagRun.state rows)))
      (group_by (λ r, (DagRun.dag_id r, DagRun.state r)) (dag_run s)).

Definition dag_state_info (s : Store) : list DagStateRow.t :=
  map (λ '((d, st, c), m), DagStateRow.mk d st c (DagModel.owners m))
      (join (λ q m, DagModel.dag_id m = q.1.1) (dag_status_query s) (dag s)).

(** The successful runs that have ended. *)
Definition completed_success (r : DagRun.t) : Prop :=
  DagRun.state r = Some State.SUCCESS ∧ is_Some (DagRun.end_date r).

#[global] Instance completed_success_dec r : Decision (completed_success r).
Proof. unfold completed_success. apply _. Defined.

(** [max_execution_dt_query], built identically in [get_dag_duration_info]
    and [get_task_duration_info]. *)
Definition max_execution_dt_query (s : Store) : list (string * option Z) :=
  map (λ '(d, rows), (d, sql_max (map (λ r, Some (DagRun.execution_date r)) rows)))
      (group_by DagRun.dag_id (filter completed_success (dag_run s))).

Definition dag_start_dt_query (s : Store) : list (string * option Z * option Z) :=
  map (λ '((d, e), rows), (d, e, sql_min (map (λ p, TaskInstance.start_date p.2) rows)))
      (group_by (λ p : (string * option Z) * TaskInstance.t, p.1)
         (join (λ m ti, TaskInstance.dag_id ti = m.1
                        ∧ sql_eq (Some (TaskInstance.execution_date ti)) m.2)
               (max_execution_dt_query s) (task_instance s))).

Definition dag_duration_info (s : Store) : list DagDurationRow.t :=
  map (λ '((d, e, sd), r), DagDurationRow.mk d sd (DagRun.end_date r))
      (join (λ q r, DagRun.dag_id r = q.1.1
                    ∧ sql_eq (Some (DagRun.execution_date r)) q.1.2)
            (dag_start_dt_query s) (dag_run s)).

(** *** Task related metrics *)

Definition task_status_query (s : Store)
  : list (string * string * option string * Z) :=
  map (λ '((d, t, st), rows), (d, t, st, Z.of_nat (length rows)))
      (group_by (λ r, (TaskInstance.dag_id r, TaskInstance.task_id r,
                       TaskInstance.state r))
                (task_instance s)).

Definition task_state_info (s : Store) : list TaskStateRow.t :=
  map (λ '((d, t, st, v), m), TaskStateRow.mk d t st v (DagModel.owners m))
      (join (λ q m, DagModel.dag_id m = q.1.1.1) (task_status_query s) (dag s)).

Definition task_failure_counts (s : Store) : list TaskFailureRow.t :=
  map (λ '((d, t), rows), TaskFailureRow.mk d t (Z.of_nat (length rows)))
      (group_by (λ r, (TaskFail.dag_id r, TaskFail.task_id r)) (task_fail s)).

Definition finished_success (ti : TaskInstance.t) : Prop :=
  TaskInstance.state ti = Some State.SUCCESS
  ∧ is_Some (TaskInstance.start_date ti)
  ∧ is_Some (TaskInstance.end_date ti).

#[global] Instance finished_success_dec ti : Decision (finished_success ti).
Proof. unfold finished_success. apply _. Defined.

Definition task_duration_query (s : Store) : list (string * string * option Z) :=
  map (λ '((d, t), rows),
         (d, t, sql_max (map (λ r, Some (TaskInstance.execution_date r)) rows)))
      (group_by (λ r, (TaskInstance.dag_id r, TaskInstance.task_id r))
                (filter finished_success (task_instance s))).

Definition task_latest_execution_dt (s : Store)
  : list (string * string * option Z) :=
  map fst
      (join (λ q m, q.1.1 = m.1 ∧ sql_eq q.2 m.2)
            (task_duration_query s) (max_execution_dt_query s)).

Definition task_duration_info (s : Store) : list TaskDurationRow.t :=
  map (λ '((d, t, e), ti),
         TaskDurationRow.mk d t (TaskInstance.start_date ti)
                            (TaskInstance.end_date ti) e)
      (join (λ q ti, TaskInstance.dag_id ti = q.1.1
                     ∧ TaskInstance.task_id ti = q.1.2
                     ∧ sql_eq (Some (TaskInstance.execution_date ti)) q.2)
            (task_latest_execution_dt s) (task_instance s)).

(** *** Scheduler related metrics *)

Definition dag_scheduler_delay (s : Store) : list DagDelayRow.t :=
  map (λ r, DagDelayRow.mk (DagRun.dag_id r) (DagRun.execution_date r)
                           (DagRun.start_date r))
      (take 1 (order_by_desc DagRun.execution_date
                 (filter (λ r, DagRun.dag_id r = CANARY_DAG) (dag_run s)))).

Definition canary_queued (ti : TaskInstance.t) : Prop :=
  TaskInstance.dag_id ti = CANARY_DAG ∧ is_Some (TaskInstance.queued_dttm ti).

#[global] Instance canary_queued_dec ti : Decision (canary_queued ti).
Proof. unfold canary_queued. apply _. Defined.

Definition task_delay_status_query (s : Store) : list (option string * option Z) :=
  map (λ '(q, rows), (q, sql_max (map TaskInstance.start_date rows)))
      (group_by TaskInstance.queue (filter canary_queued (task_instance s))).

Definition task_scheduler_delay (s : Store) : list TaskDelayRow.t :=
  map (λ '((q, max_start), ti),
         TaskDelayRow.mk q (TaskInstance.execution_date ti)
                         (TaskInstance.queued_dttm ti) max_start)
      (join (λ q ti, sql_eq (TaskInstance.queue ti) q.1
                     ∧ sql_eq (TaskInstance.start_date ti) q.2)
            (task_delay_status_query s) (task_instance s)).

Definition queued_tasks (s : Store) : list TaskInstance.t :=
  filter (λ ti, TaskInstance.state ti = Some State.QUEUED) (task_instance s).

(** ** Sessions, exceptions and the world *)

(** The eight query-layer operations. *)
Inductive QueryName :=
| DagStateInfo | DagDurationInfo | TaskStateInfo | TaskFailureCounts
| TaskDurationInfo | DagSchedulerDelay | TaskSchedulerDelay | NumQueuedTasks.

(** What happens to the session: [session_scope] is entered, a statement
    is executed on the store, [session.close()] is called. *)
Inductive Event :=
| SessionEnter
| Execute (q : QueryName)
| SessionClose.

Inductive Exn :=
| StoreError (q : QueryName)
| TypeError
| AttributeError.

(** The world a call runs in: the store, the statements the store currently
    refuses, and the session events so far (oldest first). *)
Record World := mkWorld {
  db : Store;
  refused : QueryName → bool;
  trace : list Event }.

Definition log (e : Event) (w : World) : World :=
  mkWorld (db w) (refused w) (trace w ++ [e]).

Inductive Result (A : Type) :=
| Ok (a : A)
| Raise (e : Exn).
Arguments Ok {A} a.
Arguments Raise {A} e.

Definition M (A : Type) : Type := World → Result A * World.

#[global] Instance Result_ret : MRet Result := λ A a, Ok a.
#[global] Instance Result_bind : MBind Result := λ A B k r,
  match r with
  | Ok a => k a
  | Raise e => Raise e
  end.

#[global] Instance M_ret : MRet M := λ A a w, (Ok a, w).
#[global] Instance M_bind : MBind M := λ A B k m w,
  match m w with
  | (Ok a, w') => k a w'
  | (Raise e, w') => (Raise e, w')
  end.

(** [session_scope]: [try: yield session finally: session.close()]. *)
Definition session_scope {A} (body : M A) : M A := λ w,
  let '(r, w') := body (log SessionEnter w) in
  (r, log SessionClose w').

(** A [Query] object: built without touching the store, executed by
    [all()], [count()] or iteration. *)
Record Query (A : Type) := mkQuery {
  query_name : QueryName;
  rows_of : Store → list A }.
Arguments mkQuery {A} query_name rows_of.
Arguments query_name {A} q.
Arguments rows_of {A} q.

Definition execute {A} (q : Query A) : M (list A) := λ w,
  let w' := log (Execute (query_name q)) w in
  if refused w (query_name q) then (Raise (StoreError (query_name q)), w')
  else (Ok (rows_of q (db w)), w').

Definition all {A} (q : Query A) : M (list A) := execute q.
Definition iter {A} (q : Query A) : M (list A) := execute q.
Definition count {A} (q : Query A) : M Z :=
  rows ← execute q; mret (Z.of_nat (length rows)).

(** ** The query layer *)

Definition get_dag_state_info : M (list DagStateRow.t) :=
  session_scope (all (mkQuery DagStateInfo dag_state_info)).

Definition get_dag_duration_info : M (list DagDurationRow.t) :=
  session_scope (all (mkQuery DagDurationInfo dag_duration_info)).

Definition get_task_state_info : M (list TaskStateRow.t) :=
  session_scope (all (mkQuery TaskStateInfo task_state_info)).

(** No [all()] here: the [Query] itself is returned. *)
Definition get_task_failure_counts : M (Query TaskFailureRow.t) :=
  session_scope (mret (mkQuery TaskFailureCounts task_failure_counts)).

Definition get_task_duration_info : M (list TaskDurationRow.t) :=
  session_scope (all (mkQuery TaskDurationInfo task_duration_info)).

Definition get_dag_scheduler_delay : M (list DagDelayRow.t) :=
  session_scope (all (mkQuery DagSchedulerDelay dag_scheduler_delay)).

Definition get_task_scheduler_delay : M (list TaskDelayRow.t) :=
  session_scope (all (mkQuery TaskSchedulerDelay task_scheduler_delay)).

Definition get_num_queued_tasks : M Z :=
  session_scope (count (mkQuery NumQueuedTasks queued_tasks)).

(** ** Gauge families

    [prometheus_client]'s [GaugeMetricFamily]: [add_metric] appends
    [Sample(name, dict(zip(labelnames, labels)), value)]. A label value may
    be [None]. *)

Record Sample := mkSample {
  sample_name : string;
  sample_labels : list (string * option string);
  sample_value : Q }.

Record GaugeMetricFamily := mkGauge {
  name : string;
  documentation : string;
  labelnames : list string;
  samples : list Sample }.

Definition new_gauge (n doc : string) (labels : list string) : GaugeMetricFamily :=
  mkGauge n doc labels [].

Definition append_sample (f : GaugeMetricFamily)
    (labels : list (option string)) (v : Q) : GaugeMetricFamily :=
  mkGauge (name f) (documentation f) (labelnames f)
          (samples f ++ [mkSample (name f) (zip (labelnames f) labels) v]).

(** What a Python variable of [collect] may hold. *)
Inductive PyValue :=
| Family (f : GaugeMetricFamily)
| Float (x : Q).

(** Looking up [.add_metric]: a float has no such attribute. *)
Definition getattr_add_metric (v : PyValue)
  : Result (list (option string) → Q → PyValue) :=
  match v with
  | Family f => Ok (λ labels x, Family (append_sample f labels x))
  | Float _ => Raise AttributeError
  end.

Definition add_metric (v : PyValue) (labels : list (option string)) (x : Q)
  : Result PyValue :=
  m ← getattr_add_metric v; mret (m labels x).

(** [a - b] on datetimes: a [TypeError] when an operand is [None]. *)
Definition sub (a b : option Z) : Result Z :=
  match a, b with
  | Some x, Some y => Ok (x - y)
  | _, _ => Raise TypeError
  end.

(** [timedelta.total_seconds()], the timedelta being in microseconds. *)
Definition total_seconds (td : Z) : Q := Qmake td 1000000.

(** [state or 'none']: [None] and the empty string are falsy. *)
Definition or_none (state : option string) : string :=
  match state with
  | Some s => if decide (s = "") then "none" else s
  | None => "none"
  end.

(** A [for] loop whose body may rebind the loop-carried variable or raise. *)
Fixpoint for_each {A S} (l : list A) (s : S) (body : A → S → Result S)
  : Result S :=
  match l with
  | [] => Ok s
  | a :: l' => s' ← body a s; for_each l' s' body
  end.

(** ** The generator *)

(** A run of a generator: what it yielded so far, how it went on, and the
    world it left. *)
Definition G (A : Type) : Type := World → (list PyValue * Result A) * World.

#[global] Instance G_ret : MRet G := λ A a w, (([], Ok a), w).
#[global] Instance G_bind : MBind G := λ A B k g w,
  match g w with
  | ((ys, Ok a), w') =>
      let '((ys', r), w'') := k a w' in ((ys ++ ys', r), w'')
  | ((ys, Raise e), w') => ((ys, Raise e), w')
  end.

Definition yield (v : PyValue) : G unit := λ w, (([v], Ok tt), w).

Definition call {A} (m : M A) : G A := λ w,
  let '(r, w') := m w in (([], r), w').

Definition eval {A} (r : Result A) : G A := λ w, (([], r), w).

(** ** The metrics collector *)

Section Collector.

(** [str(d.date())] of the standard library, for a timestamp [d]. *)
Variable date_str : Z → string.

(** The label [str(task.execution_date.date())]. *)
Definition date_label (d : option Z) : Result (option string) :=
  match d with
  | Some x => Ok (Some (date_str x))
  | None => Raise AttributeError
  end.

Definition collect : G unit :=
  (* Task metrics *)
  task_info ← call get_task_state_info;
  let t_state := Family (new_gauge
    "airflow_task_status"
    "Shows the number of task instances with particular status"
    ["dag_id"; "task_id"; "owner"; "status"]) in
  t_state ← eval (for_each task_info t_state (λ task t_state,
    add_metric t_state
      [Some (TaskStateRow.dag_id task); Some (TaskStateRow.task_id task);
       TaskStateRow.owners task; Some (or_none (TaskStateRow.state task))]
      (inject_Z (TaskStateRow.value task))));
  yield t_state;;

  let task_duration := Family (new_gauge
    "airflow_task_duration"
    "Duration of successful tasks in seconds"
    ["task_id"; "dag_id"; "execution_date"]) in
  rows ← call get_task_duration_info;
  task_duration ← eval (for_each rows task_duration (λ task task_duration,
    td ← sub (TaskDurationRow.end_date task) (TaskDurationRow.start_date task);
    let task_duration := Float (total_seconds td) in
    m ← getattr_add_metric task_duration;
    d ← date_label (TaskDurationRow.execution_date task);
    mret (m [Some (TaskDurationRow.task_id task);
             Some (TaskDurationRow.dag_id task); d]
            (total_seconds td))));
  yield task_duration;;

  let task_failure_count := Family (new_gauge
    "airflow_task_fail_count"
    "Count of failed tasks"
    ["dag_id"; "task_id"]) in
  query ← call get_task_failure_counts;
  rows ← call (iter query);
  task_failure_count ← eval (for_each rows task_failure_count
    (λ task task_failure_count,
      add_metric task_failure_count
        [Some (TaskFailureRow.dag_id task); Some (TaskFailureRow.task_id task)]
        (inject_Z (TaskFailureRow.count task))));
  yield task_failure_count;;

  (* Dag Metrics *)
  dag_info ← call get_dag_state_info;
  let d_state := Family (new_gauge
    "airflow_dag_status"
    "Shows the number of dag starts with this status"
    ["dag_id"; "owner"; "status"]) in
  d_state ← eval (for_each dag_info d_state (λ dag d_state,
    add_metric d_state
      [Some (DagStateRow.dag_id dag); DagStateRow.owners dag;
       DagStateRow.state dag]
      (inject_Z (DagStateRow.count dag))));
  yield d_state;;

  let dag_duration := Family (new_gauge
    "airflow_dag_run_duration"
    "Duration of successful dag_runs in seconds"
    ["dag_id"]) in
  rows ← call get_dag_duration_info;
  dag_duration ← eval (for_each rows dag_duration (λ dag dag_duration,
    td ← sub (DagDurationRow.end_date dag) (DagDurationRow.start_date dag);
    let dag_duration := Float (total_seconds td) in
    add_metric dag_duration [Some (DagDurationRow.dag_id dag)]
               (total_seconds td)));
  yield dag_duration;;

  (* Scheduler Metrics *)
  let dag_scheduler_delay := Family (new_gauge
    "airflow_dag_scheduler_delay"
    "Airflow DAG scheduling delay"
    ["dag_id"]) in
  rows ← call get_dag_scheduler_delay;
  dag_scheduler_delay ← eval (for_each rows dag_scheduler_delay
    (λ dag dag_scheduler_delay,
      td ← sub (DagDelayRow.start_date dag)
               (Some (DagDelayRow.execution_date dag));
      let dag_scheduling_delay := total_seconds td in
      add_metric dag_scheduler_delay [Some (DagDelayRow.dag_id dag)]
                 dag_scheduling_delay));
  yield dag_scheduler_delay;;

  let task_scheduler_delay := Family (new_gauge
    "airflow_task_scheduler_delay"
    "Airflow Task scheduling delay"
    ["queue"]) in
  rows ← call get_task_scheduler_delay;
  task_scheduler_delay ← eval (for_each rows task_scheduler_delay
    (λ task task_scheduler_delay,
      td ← sub (TaskDelayRow.start_date task) (TaskDelayRow.queued_dttm task);
      let task_scheduling_delay := total_seconds td in
      add_metric task_scheduler_delay [TaskDelayRow.queue task]
                 task_scheduling_delay));
  yield task_scheduler_delay;;

  let num_queued_tasks_metric := Family (new_gauge
    "airflow_num_queued_tasks"
    "Airflow Number of Queued Tasks"
    []) in
  num_queued_tasks ← call get_num_queued_tasks;
  num_queued_tasks_metric ←
    eval (add_metric num_queued_tasks_metric [] (inject_Z num_queued_tasks));
  yield num_queued_tasks_metric.

End Collector.

(** The outcome of a whole scrape, started in world [w]. *)
Definition yielded (date_str : Z → string) (w : World) : list PyValue :=
  (collect date_str w).1.1.

Definition outcome (date_str : Z → string) (w : World) : Result unit :=
  (collect date_str w).1.2.

Definition after (date_str : Z → string) (w : World) : World :=
  (collect date_str w).2.

(** A fresh world over a store on which every statement succeeds. *)
Definition world_of (s : Store) : World := mkWorld s (λ _, false) [].

(** ** Vocabulary of the statements *)

(** The world after one scoped statement [n]. *)
Definition closed (n : QueryName) (w : World) : World :=
  log SessionClose (log (Execute n) (log SessionEnter w)).

(** A run of [g] from [w] satisfies [Φ]: a postcondition on what was
    yielded, how the run ended and the world it left. *)
Definition sat {A} (g : G A) (w : World)
    (Φ : list PyValue → Result A → World → Prop) : Prop :=
  Φ (g w).1.1 (g w).1.2 (g w).2.

(** Two worlds over the same store contents, whatever their histories. *)
Definition same_store (w1 w2 : World) : Prop :=
  db w1 = db w2 ∧ refused w1 = refused w2.

(** A reader: its result only depends on the store contents, and it
    leaves them as it found them. *)
Definition reader_M {A} (m : M A) : Prop :=
  (∀ w1 w2, same_store w1 w2 → (m w1).1 = (m w2).1)
  ∧ (∀ w, same_store (m w).2 w).

Definition reader {A} (g : G A) : Prop :=
  (∀ w1 w2, same_store w1 w2 → (g w1).1 = (g w2).1)
  ∧ (∀ w, same_store (g w).2 w).

(** Name and label schema of a yielded value, when it is a family. *)
Definition schema (v : PyValue) : option (string * list string) :=
  match v with
  | Family f => Some (name f, labelnames f)
  | Float _ => None
  end.

(** The families [collect] builds, in the order of its [yield]s. *)
Definition airflow_catalog : list (string * list string) :=
  [ ("airflow_task_status", ["dag_id"; "task_id"; "owner"; "status"]);
    ("airflow_task_duration", ["task_id"; "dag_id"; "execution_date"]);
    ("airflow_task_fail_count", ["dag_id"; "task_id"]);
    ("airflow_dag_status", ["dag_id"; "owner"; "status"]);
    ("airflow_dag_run_duration", ["dag_id"]);
    ("airflow_dag_scheduler_delay", ["dag_id"]);
    ("airflow_task_scheduler_delay", ["queue"]);
    ("airflow_num_queued_tasks", []) ].

(** The metric catalog as the specification words it (section 4.2). *)
Definition spec_catalog : list (string * list string) :=
  [ ("workflow_task_status", ["dag_id"; "task_id"; "owner"; "status"]);
    ("workflow_task_duration", ["task_id"; "dag_id"; "execution_date"]);
    ("workflow_task_fail_count", ["dag_id"; "task_id"]);
    ("workflow_dag_status", ["dag_id"; "owner"; "status"]);
    ("workflow_dag_run_duration", ["dag_id"]);
    ("workflow_dag_scheduler_delay", ["dag_id"]);
    ("workflow_task_scheduler_delay", ["queue"]);
    ("workflow_num_queued_tasks", []) ].

(** The samples emitted under family name [n]. *)
Definition samples_of (n : string) (ys : list PyValue) : list Sample :=
  flat_map (λ v, match v with
                 | Family f => if decide (name f = n) then samples f else []
                 | Float _ => []
                 end) ys.

(** The samples of the two duration metrics. *)
Definition duration_samples (ys : list PyValue) : list Sample :=
  samples_of "airflow_task_duration" ys ++ samples_of "airflow_dag_run_duration" ys.

(** The (end, start) pairs of the rows of the two duration queries. *)
Definition duration_intervals (s : Store) : list (option Z * option Z) :=
  map (λ r, (TaskDurationRow.end_date r, TaskDurationRow.start_date r))
      (task_duration_info s)
  ++ map (λ r, (DagDurationRow.end_date r, DagDurationRow.start_date r))
         (dag_duration_info s).

(** The exceptions of the Python code itself, and those of the store. *)
Definition code_error (e : Exn) : Prop := e = TypeError ∨ e = AttributeError.

(** The run ended in an exception: one of the code's own, or the error of a
    statement that the store refuses. *)
Definition raised (w : World) (r : Result unit) : Prop :=
  ∃ e, r = Raise e
       ∧ (code_error e ∨ ∃ q, e = StoreError q ∧ refused w q = true).

(** The families of a scrape over store [s], as the proofs below find them:
    one sample per row of the state and failure queries, no sample at all in
    the two duration families, [d] and [t] for the samples of the two
    scheduler delays, and the number of queued task instances. *)
Definition families (s : Store) (d t : list Sample) : list PyValue :=
  [ Family (mkGauge "airflow_task_status"
      "Shows the number of task instances with particular status"
      ["dag_id"; "task_id"; "owner"; "status"]
      (map (λ r, mkSample "airflow_task_status"
                   [("dag_id", Some (TaskStateRow.dag_id r));
                    ("task_id", Some (TaskStateRow.task_id r));
                    ("owner", TaskStateRow.owners r);
                    ("status", Some (or_none (TaskStateRow.state r)))]
                   (inject_Z (TaskStateRow.value r)))
           (task_state_info s)));
    Family (mkGauge "airflow_task_duration"
      "Duration of successful tasks in seconds"
      ["task_id"; "dag_id"; "execution_date"] []);
    Family (mkGauge "airflow_task_fail_count" "Count of failed tasks"
      ["dag_id"; "task_id"]
      (map (λ r, mkSample "airflow_task_fail_count"
                   [("dag_id", Some (TaskFailureRow.dag_id r));
                    ("task_id", Some (TaskFailureRow.task_id r))]
                   (inject_Z (TaskFailureRow.count r)))
           (task_failure_counts s)));
    Family (mkGauge "airflow_dag_status"
      "Shows the number of dag starts with this status"
      ["dag_id"; "owner"; "status"]
      (map (λ r, mkSample "airflow_dag_status"
                   [("dag_id", Some (DagStateRow.dag_id r));
                    ("owner", DagStateRow.owners r);
                    ("status", DagStateRow.state r)]
                   (inject_Z (DagStateRow.count r)))
           (dag_state_info s)));
    Family (mkGauge "airflow_dag_run_duration"
      "Duration of successful dag_runs in seconds" ["dag_id"] []);
    Family (mkGauge "airflow_dag_scheduler_delay"
      "Airflow DAG scheduling delay" ["dag_id"] d);
    Family (mkGauge "airflow_task_scheduler_delay"
      "Airflow Task scheduling delay" ["queue"] t);
    Family (mkGauge "airflow_num_queued_tasks"
      "Airflow Number of Queued Tasks" []
      [mkSample "airflow_num_queued_tasks" []
                (inject_Z (Z.of_nat (length (queued_tasks s))))]) ].

(** Every statement of the trace is executed inside a session scope;
    [open] tells whether a scope is open when the trace starts. *)
Fixpoint in_scope (open : bool) (t : list Event) : bool :=
  match t with
  | [] => true
  | SessionEnter :: t' => in_scope true t'
  | SessionClose :: t' => in_scope false t'
  | Execute _ :: t' => open && in_scope open t'
  end.

(** The unique constraint of [dag_run] on (dag_id, execution_date). *)
Definition dag_run_key_unique (s : Store) : Prop :=
  NoDup (map (λ r, (DagRun.dag_id r, DagRun.execution_date r)) (dag_run s)).

(** The task instances of one run. *)
Definition tasks_of_run (s : Store) (r : DagRun.t) : list TaskInstance.t :=
  filter (λ ti, TaskInstance.dag_id ti = DagRun.dag_id r
                ∧ TaskInstance.execution_date ti = DagRun.execution_date r)
         (task_instance s).

(** [r] is the latest successful run of its workflow: it succeeded, it has
    ended, and no such run of the workflow has a later execution date. *)
Definition latest_successful_run (s : Store) (r : DagRun.t) : Prop :=
  r ∈ dag_run s ∧ completed_success r
  ∧ ∀ r', r' ∈ dag_run s → DagRun.dag_id r' = DagRun.dag_id r →
          completed_success r' →
          DagRun.execution_date r' ≤ DagRun.execution_date r.

(** ** Stores used as examples *)

(** An instantiation of [str(d.date())] for the examples. *)
Definition any_date_str : Z → string := λ _, "1970-01-01".

(** One workflow, one successful run that has ended, one successful task
    instance in it. *)
Definition store_one_success : Store := mkStore
  [DagModel.mk "etl_daily" (Some "airflow")]
  [DagRun.mk "etl_daily" (Some "success") 0 (Some 1000000) (Some 60000000)]
  [TaskInstance.mk "etl_daily" "extract" 0 (Some "success") (Some "default")
     (Some 2000000) (Some 50000000) (Some 1000000)]
  [].

(** The same, the task instance ending before it starts. *)
Definition store_end_before_start : Store := mkStore
  [DagModel.mk "etl_daily" (Some "airflow")]
  [DagRun.mk "etl_daily" (Some "success") 0 (Some 1000000) (Some 60000000)]
  [TaskInstance.mk "etl_daily" "extract" 0 (Some "success") (Some "default")
     (Some 50000000) (Some 2000000) (Some 1000000)]
  [].

(** A canary task instance, and a task instance of another workflow in the
    same queue that started at the same instant. *)
Definition store_shared_queue : Store := mkStore
  []
  []
  [TaskInstance.mk "canary_dag" "ping" 0 (Some "running") (Some "default")
     (Some 100000000) None (Some 90000000);
   TaskInstance.mk "etl_daily" "load" 0 (Some "running") (Some "default")
     (Some 100000000) None (Some 40000000)]
  [].

(** A run whose state is NULL. *)
Definition store_null_run_state : Store := mkStore
  [DagModel.mk "etl_daily" (Some "airflow")]
  [DagRun.mk "etl_daily" None 0 None None]
  []
  [].

(** ** Vocabulary of the function-by-function properties *)

(** The runs of workflow [d] in state [st]. *)
Definition runs_in_state (s : Store) (d : string) (st : option string)
  : list DagRun.t :=
  filter (λ r, DagRun.dag_id r = d ∧ DagRun.state r = st) (dag_run s).

(** The task instances of task [t] of workflow [d] in state [st]. *)
Definition tasks_in_state (s : Store) (d t : string) (st : option string)
  : list TaskInstance.t :=
  filter (λ ti, TaskInstance.dag_id ti = d ∧ TaskInstance.task_id ti = t
                ∧ TaskInstance.state ti = st) (task_instance s).

(** The failures recorded for task [t] of workflow [d]. *)
Definition failures_of (s : Store) (d t : string) : list TaskFail.t :=
  filter (λ f, TaskFail.dag_id f = d ∧ TaskFail.task_id f = t) (task_fail s).

(** The sum of a column of counts. *)
Definition total (l : list Z) : Z := foldr Z.add 0 l.

(** The sample of a delay [a - b], when both dates are there. *)
Definition delay_sample (n : string) (labels : list (string * option string))
    (a b : option Z) : option Sample :=
  match a, b with
  | Some x, Some y => Some (mkSample n labels (total_seconds (x - y)))
  | _, _ => None
  end.

Definition dag_delay_sample (row : DagDelayRow.t) : option Sample :=
  delay_sample "airflow_dag_scheduler_delay"
    [("dag_id", Some (DagDelayRow.dag_id row))]
    (DagDelayRow.start_date row) (Some (DagDelayRow.execution_date row)).

Definition task_delay_sample (row : TaskDelayRow.t) : option Sample :=
  delay_sample "airflow_task_scheduler_delay"
    [("queue", TaskDelayRow.queue row)]
    (TaskDelayRow.start_date row) (TaskDelayRow.queued_dttm row).

(** The store refuses no statement. *)
Definition healthy (w : World) : Prop := ∀ q, refused w q = false.

(** What a duration loop raises on its first row: [TypeError] when a date
    is NULL, otherwise the [AttributeError] of [add_metric] on a float. *)
Definition duration_error (e s : option Z) : Exn :=
  match sub e s with
  | Ok _ => AttributeError
  | Raise x => x
  end.

(** The scrape of a healthy store, in closed form. *)
Definition scrape (s : Store) : list PyValue * Result unit :=
  match task_duration_info s with
  | row :: _ =>
      (take 1 (families s [] []),
       Raise (duration_error (TaskDurationRow.end_date row)
                             (TaskDurationRow.start_date row)))
  | [] =>
    match dag_duration_info s with
    | row :: _ =>
        (take 4 (families s [] []),
         Raise (duration_error (DagDurationRow.end_date row)
                               (DagDurationRow.start_date row)))
    | [] =>
      match mapM dag_delay_sample (dag_scheduler_delay s) with
      | None => (take 5 (families s [] []), Raise TypeError)
      | Some d =>
        match mapM task_delay_sample (task_scheduler_delay s) with
        | None => (take 6 (families s d []), Raise TypeError)
        | Some t => (families s d t, Ok tt)
        end
      end
    end
  end.

(** A successful run whose only task instance is still running. *)
Definition store_running_task : Store := mkStore
  [DagModel.mk "etl_daily" (Some "airflow")]
  [DagRun.mk "etl_daily" (Some "success") 0 (Some 1000000) (Some 60000000)]
  [TaskInstance.mk "etl_daily" "extract" 0 (Some "running") (Some "default")
     (Some 2000000) None (Some 1000000)]
  [].

(** A canary run that has not started. *)
Definition store_canary_not_started : Store := mkStore
  []
  [DagRun.mk "canary_dag" (Some "running") 0 None None]
  []
  [].

(** A canary task instance, and a task instance of the same queue that
    started at the same instant without a queued time. *)
Definition store_null_queued_time : Store := mkStore
  []
  []
  [TaskInstance.mk "canary_dag" "ping" 0 (Some "running") (Some "default")
     (Some 100000000) None (Some 90000000);
   TaskInstance.mk "etl_daily" "load" 0 (Some "running") (Some "default")
     (Some 100000000) None None]
  [].

(** Whether a session scope is open after the events [t]. *)
Fixpoint scope_open (open : bool) (t : list Event) : bool :=
  match t with
  | [] => open
  | SessionEnter :: t' => scope_open true t'
  | SessionClose :: t' => scope_open false t'
  | Execute _ :: t' => scope_open open t'
  end.

(** The statements executed by the events [t], in order. *)
Definition statements (t : list Event) : list QueryName :=
  omap (λ e, match e with Execute q => Some q | _ => None end) t.

(** The statements of [collect], in the order of its code. *)
Definition statement_order : list QueryName :=
  [TaskStateInfo; TaskDurationInfo; TaskFailureCounts; DagStateInfo;
   DagDurationInfo; DagSchedulerDelay; TaskSchedulerDelay; NumQueuedTasks].

(** * Properties *)

(** ** Worlds and readers *)

Lemma db_closed n w : db (closed n w) = db w.
Proof. reflexivity. Qed.

Lemma refused_closed n w : refused (closed n w) = refused w.
Proof. reflexivity. Qed.

Lemma trace_closed n w :
  trace (closed n w) = trace w ++ [SessionEnter; Execute n; SessionClose].
Proof. unfold closed, log; simpl. by rewrite <- !app_assoc. Qed.

#[global] Instance same_store_equiv : Equivalence same_store.
Proof.
  split.
  - by intros w.
  - intros w1 w2 [H1 H2]. split; congruence.
  - intros w1 w2 w3 [H1 H2] [H3 H4]. split; congruence.
Qed.

Lemma same_store_log e w : same_store (log e w) w.
Proof. done. Qed.

Section Readers.
Context {A B : Type}.

Lemma reader_M_ret (a : A) : reader_M (mret a).
Proof. split; [by intros w1 w2 _ | by intros w]. Qed.

Lemma reader_M_execute (q : Query A) : reader_M (execute q).
Proof.
  split.
  - intros w1 w2 [Hdb Hre]. unfold execute; simpl. rewrite Hdb, Hre.
    by destruct (refused w2 _).
  - intros w. unfold execute. by destruct (refused w _).
Qed.

Lemma reader_M_bind (m : M A) (k : A → M B) :
  reader_M m → (∀ a, reader_M (k a)) → reader_M (m ≫= k).
Proof.
  intros [Hs Hr] Hk. split.
  - intros w1 w2 Hw. unfold mbind, M_bind.
    pose proof (Hs w1 w2 Hw) as E. pose proof (Hr w1) as R1.
    pose proof (Hr w2) as R2.
    destruct (m w1) as [r1 w1'], (m w2) as [r2 w2']; simpl in *. subst r2.
    destruct r1; [|done]. apply (Hk a).
    by rewrite R1, Hw, <- R2.
  - intros w. unfold mbind, M_bind. pose proof (Hr w) as R.
    destruct (m w) as [[a|e] w']; simpl in *; [|done].
    rewrite <- R. apply (Hk a).
Qed.

Lemma reader_M_session_scope (m : M A) : reader_M m → reader_M (session_scope m).
Proof.
  intros [Hs Hr]. split.
  - intros w1 w2 Hw. unfold session_scope.
    assert (same_store (log SessionEnter w1) (log SessionEnter w2)) as Hl
      by (by rewrite !same_store_log).
    pose proof (Hs _ _ Hl) as E.
    destruct (m (log SessionEnter w1)), (m (log SessionEnter w2)). done.
  - intros w. unfold session_scope. pose proof (Hr (log SessionEnter w)) as R.
    destruct (m (log SessionEnter w)) as [r w']; simpl in *.
    by rewrite same_store_log, R, same_store_log.
Qed.

Lemma reader_call (m : M A) : reader_M m → reader (call m).
Proof.
  intros [Hs Hr]. split.
  - intros w1 w2 Hw. unfold call. pose proof (Hs _ _ Hw) as E.
    destruct (m w1), (m w2); simpl in *. by subst.
  - intros w. unfold call. pose proof (Hr w) as R. by destruct (m w).
Qed.

Lemma reader_eval (r : Result A) : reader (eval r).
Proof. split; [by intros w1 w2 _ | by intros w]. Qed.

Lemma reader_bind (g : G A) (k : A → G B) :
  reader g → (∀ a, reader (k a)) → reader (g ≫= k).
Proof.
  intros [Hs Hr] Hk. split.
  - intros w1 w2 Hw. unfold mbind, G_bind.
    pose proof (Hs w1 w2 Hw) as E. pose proof (Hr w1) as R1.
    pose proof (Hr w2) as R2.
    destruct (g w1) as [[ys1 r1] w1'], (g w2) as [[ys2 r2] w2']; simpl in *.
    injection E as -> ->. destruct r2 as [a|e]; [|done].
    assert (same_store w1' w2') as Hw' by (by rewrite R1, Hw, <- R2).
    destruct (Hk a) as [Hka _]. specialize (Hka _ _ Hw').
    destruct (k a w1') as [[ys1' r1'] w1''], (k a w2') as [[ys2' r2'] w2''].
    simpl in *. by injection Hka as -> ->.
  - intros w. unfold mbind, G_bind. pose proof (Hr w) as R.
    destruct (g w) as [[ys [a|e]] w']; simpl in *; [|done].
    destruct (Hk a) as [_ Hka]. specialize (Hka w').
    destruct (k a w') as [[ys' r'] w'']; simpl in *. by rewrite Hka.
Qed.

End Readers.

Lemma reader_yield v : reader (yield v).
Proof. split; [by intros w1 w2 _ | by intros w]. Qed.

Lemma reader_M_scoped_all {A} n (f : Store → list A) :
  reader_M (session_scope (all (mkQuery n f))).
Proof. apply reader_M_session_scope, reader_M_execute. Qed.

Lemma reader_M_get_task_failure_counts : reader_M get_task_failure_counts.
Proof. apply reader_M_session_scope, reader_M_ret. Qed.

Lemma reader_M_get_num_queued_tasks : reader_M get_num_queued_tasks.
Proof.
  apply reader_M_session_scope, reader_M_bind; [apply reader_M_execute|].
  intros rows. apply reader_M_ret.
Qed.

Create HintDb readers.
#[global] Hint Resolve reader_call reader_eval reader_yield reader_M_scoped_all
  reader_M_execute reader_M_get_task_failure_counts
  reader_M_get_num_queued_tasks : readers.

Lemma reader_collect date_str : reader (collect date_str).
Proof.
  unfold collect, get_task_state_info, get_task_duration_info,
    get_dag_state_info, get_dag_duration_info, get_dag_scheduler_delay,
    get_task_scheduler_delay, iter.
  repeat (apply reader_bind; [auto with readers | intros ?]).
  auto with readers.
Qed.

(** ** Stepping through a generator *)

Lemma run_scoped_all {A} n (f : Store → list A) w :
  session_scope (all (mkQuery n f)) w =
  (if refused w n then Raise (StoreError n) else Ok (f (db w)), closed n w).
Proof.
  unfold session_scope, all, execute; simpl. by destruct (refused w n).
Qed.

Lemma run_get_task_failure_counts w :
  get_task_failure_counts w =
  (Ok (mkQuery TaskFailureCounts task_failure_counts),
   log SessionClose (log SessionEnter w)).
Proof. reflexivity. Qed.

Lemma run_iter {A} (q : Query A) w :
  iter q w =
  (if refused w (query_name q) then Raise (StoreError (query_name q))
   else Ok (rows_of q (db w)), log (Execute (query_name q)) w).
Proof. unfold iter, execute. by destruct (refused w _). Qed.

Lemma run_get_num_queued_tasks w :
  get_num_queued_tasks w =
  (if refused w NumQueuedTasks then Raise (StoreError NumQueuedTasks)
   else Ok (Z.of_nat (length (queued_tasks (db w)))), closed NumQueuedTasks w).
Proof.
  unfold get_num_queued_tasks, session_scope, count, execute, mbind, M_bind.
  simpl. by destruct (refused w _).
Qed.

Section Stepping.
Context {A B : Type}.
Implicit Types (Φ : list PyValue → Result B → World → Prop).

Lemma sat_yield_bind v (k : unit → G B) w Φ :
  sat (k tt) w (λ ys, Φ (v :: ys)) → sat (yield v ≫= k) w Φ.
Proof.
  unfold sat, mbind, G_bind, yield.
  by destruct (k tt w) as [[ys r] w'].
Qed.

Lemma sat_eval_bind (r : Result A) (k : A → G B) w Φ :
  match r with
  | Ok a => sat (k a) w Φ
  | Raise e => Φ [] (Raise e) w
  end → sat (eval r ≫= k) w Φ.
Proof.
  unfold sat, mbind, G_bind, eval. destruct r as [a|e]; [|done].
  by destruct (k a w) as [[ys r] w'].
Qed.

Lemma sat_call_bind (m : M A) (k : A → G B) w Φ :
  match (m w).1 with
  | Ok a => sat (k a) (m w).2 Φ
  | Raise e => Φ [] (Raise e) (m w).2
  end → sat (call m ≫= k) w Φ.
Proof.
  unfold sat, mbind, G_bind, call. destruct (m w) as [[a|e] w']; [|done].
  simpl. by destruct (k a w') as [[ys r] w''].
Qed.

End Stepping.

Lemma sat_scoped_all_bind {R B} n (f : Store → list R) (k : list R → G B) w Φ :
  (refused w n = true → Φ [] (Raise (StoreError n)) (closed n w)) →
  (refused w n = false → sat (k (f (db w))) (closed n w) Φ) →
  sat (call (session_scope (all (mkQuery n f))) ≫= k) w Φ.
Proof.
  intros Hbad Hgood. apply sat_call_bind. rewrite run_scoped_all.
  destruct (refused w n); simpl; auto.
Qed.

Lemma sat_yield v w (Φ : list PyValue → Result unit → World → Prop) :
  Φ [v] (Ok tt) w → sat (yield v) w Φ.
Proof. done. Qed.

(** ** Loops *)

(** A loop that only adds samples to a family: one sample per row, in the
    order of the rows. *)
Lemma for_each_add_metric {A} (l : list A) lbl val f :
  for_each l (Family f) (λ a v, add_metric v (lbl a) (val a)) =
  Ok (Family (mkGauge (name f) (documentation f) (labelnames f)
     (samples f
      ++ map (λ a, mkSample (name f) (zip (labelnames f) (lbl a)) (val a)) l))).
Proof.
  revert f. induction l as [|a l IH]; intros f; simpl.
  - rewrite app_nil_r. by destruct f.
  - rewrite IH. simpl. by rewrite <- app_assoc.
Qed.

Lemma db_log e w : db (log e w) = db w.
Proof. reflexivity. Qed.

Lemma refused_log e w : refused (log e w) = refused w.
Proof. reflexivity. Qed.

Lemma sub_raise a b e : sub a b = Raise e → e = TypeError.
Proof. destruct a, b; simpl; congruence. Qed.

(** A body that raises on every row: the loop ends normally only when there
    is no row, the variable being what it was. *)
Lemma for_each_raises {A S} (P : Exn → Prop) (l : list A)
    (body : A → S → Result S) s :
  (∀ a s, ∃ e, body a s = Raise e ∧ P e) →
  (l = [] ∧ for_each l s body = Ok s)
  ∨ (l ≠ [] ∧ ∃ e, for_each l s body = Raise e ∧ P e).
Proof.
  intros Hbody. destruct l as [|a l]; simpl; [by left|right].
  split; [done|]. destruct (Hbody a s) as (e & -> & He). eauto.
Qed.

(** The loops of the two scheduler-delay metrics: a [TypeError], or the
    family with some samples added. *)
Lemma for_each_delay {A} (l : list A) (x y : A → option Z) lbl f :
  let r := for_each l (Family f) (λ a v,
             td ← sub (x a) (y a); add_metric v (lbl a) (total_seconds td)) in
  r = Raise TypeError
  ∨ ∃ smps, r = Ok (Family (mkGauge (name f) (documentation f) (labelnames f)
                                    (samples f ++ smps))).
Proof.
  revert f. induction l as [|a l IH]; intros f; simpl.
  - right. exists []. rewrite app_nil_r. by destruct f.
  - destruct (x a) as [xa|], (y a) as [ya|]; simpl; auto.
    destruct (IH (append_sample f (lbl a) (total_seconds (xa - ya))))
      as [->|[smps ->]]; auto.
    right. simpl. eexists. by rewrite <- app_assoc.
Qed.

(** ** The shape of every run of [collect] *)

Ltac unfold_collect :=
  unfold collect, get_task_state_info, get_task_duration_info,
    get_dag_state_info, get_dag_duration_info, get_dag_scheduler_delay,
    get_task_scheduler_delay.

Ltac world_simpl :=
  rewrite ?db_closed, ?refused_closed, ?db_log, ?refused_log in *.

(** One statement of the generator. *)
Ltac gstep :=
  cbv beta zeta;
  lazymatch goal with
  | |- sat (yield _ ≫= _) _ _ => apply sat_yield_bind
  | |- sat (eval _ ≫= _) _ _ => apply sat_eval_bind
  | |- sat (call (session_scope (all _)) ≫= _) _ _ =>
      apply sat_scoped_all_bind; intros ?; world_simpl
  | |- sat (call get_task_failure_counts ≫= _) _ _ =>
      apply sat_call_bind; rewrite run_get_task_failure_counts; simpl
  | |- sat (call (iter _) ≫= _) _ _ =>
      apply sat_call_bind; rewrite run_iter; simpl; world_simpl;
      destruct (refused _ TaskFailureCounts) eqn:?; simpl
  | |- sat (call get_num_queued_tasks ≫= _) _ _ =>
      apply sat_call_bind; rewrite run_get_num_queued_tasks; simpl; world_simpl;
      destruct (refused _ NumQueuedTasks) eqn:?; simpl
  | |- sat (yield _) _ _ => apply sat_yield
  end.

(** Case analysis on a loop whose body rebinds its family to a float. *)
Ltac raising_loop :=
  lazymatch goal with
  | |- context [for_each ?l ?s ?b] =>
      let H := fresh "Hrows" in
      destruct (for_each_raises code_error l b s) as [[H ->]|[H (? & -> & ?)]];
      [ intros ? ?; cbv beta zeta;
        destruct (sub _ _) as [?|?] eqn:Hsub; simpl;
        [ eexists; split; [reflexivity | by right]
        | apply sub_raise in Hsub as ->; eexists; split; [reflexivity | by left] ]
      | | ]
  end.

(** Case analysis on a scheduler-delay loop. *)
Ltac delay_loop :=
  lazymatch goal with
  | |- context [for_each ?l (Family ?f)
                  (λ a v, mbind (λ td, add_metric v (@?lbl a) _)
                                (sub (@?x a) (@?y a)))] =>
      let H := fresh "Hloop" in
      destruct (for_each_delay l x y lbl f) as [H|[? H]];
      cbv beta zeta in H; rewrite H; clear H
  end.

(** A branch that ends in an exception after [k] families, the two
    scheduler-delay families having samples [d] and [t]. *)
Ltac stopped k d t :=
  exists k, d, t; split; [reflexivity|];
  split; [intros ?; first [congruence | lia] | right];
  split; [eexists; split; [reflexivity | unfold code_error; eauto] |];
  split; [lia|]; split; intros ?; first [done | lia].

Section Runs.
Variable date_str : Z → string.

(** Every run yields the first [k] of the eight families, at least one
    unless the first statement is refused. It either
    completes, with all eight, which takes both duration queries to be
    empty; or it raises, after at most one family when the task-duration
    query has a row, and after at most four when the DAG-run-duration
    query has one. *)
Lemma collect_run w :
  sat (collect date_str) w (λ ys r _,
    ∃ (k : nat) d t,
      ys = take k (families (db w) d t)
      ∧ (refused w TaskStateInfo = false → (1 ≤ k)%nat)
      ∧ (r = Ok tt ∧ k = 8%nat
         ∧ task_duration_info (db w) = [] ∧ dag_duration_info (db w) = []
         ∨ raised w r ∧ (k < 8)%nat
           ∧ (task_duration_info (db w) ≠ [] → (k ≤ 1)%nat)
           ∧ (dag_duration_info (db w) ≠ [] → (k ≤ 4)%nat))).
Proof.
  unfold_collect.
  gstep. { stopped 0%nat (@nil Sample) (@nil Sample). }
  gstep. rewrite for_each_add_metric.
  gstep. gstep. { stopped 1%nat (@nil Sample) (@nil Sample). }
  gstep. raising_loop; [|stopped 1%nat (@nil Sample) (@nil Sample)].
  gstep. gstep. gstep. { stopped 2%nat (@nil Sample) (@nil Sample). }
  rewrite for_each_add_metric.
  gstep. gstep. gstep. { stopped 3%nat (@nil Sample) (@nil Sample). }
  gstep. rewrite for_each_add_metric.
  gstep. gstep. { stopped 4%nat (@nil Sample) (@nil Sample). }
  gstep. raising_loop; [|stopped 4%nat (@nil Sample) (@nil Sample)].
  gstep. gstep. { stopped 5%nat (@nil Sample) (@nil Sample). }
  gstep. delay_loop. { stopped 5%nat (@nil Sample) (@nil Sample). }
  gstep. gstep. { stopped 6%nat x (@nil Sample). }
  gstep. delay_loop. { stopped 6%nat x (@nil Sample). }
  gstep. gstep. { stopped 7%nat x x0. }
  gstep. simpl. gstep.
  exists 8%nat, x, x0. split; [reflexivity|]. split; [lia | by left].
Qed.

End Runs.

(** ** Consequences of the shape of a run *)

Lemma collect_shape date_str w :
  ∃ (k : nat) d t,
    yielded date_str w = take k (families (db w) d t)
    ∧ (refused w TaskStateInfo = false → (1 ≤ k)%nat)
    ∧ (outcome date_str w = Ok tt ∧ k = 8%nat
       ∧ task_duration_info (db w) = [] ∧ dag_duration_info (db w) = []
       ∨ raised w (outcome date_str w) ∧ (k < 8)%nat
         ∧ (task_duration_info (db w) ≠ [] → (k ≤ 1)%nat)
         ∧ (dag_duration_info (db w) ≠ [] → (k ≤ 4)%nat)).
Proof. exact (collect_run date_str w). Qed.


Lemma schema_families k s d t :
  map schema (take k (families s d t)) = map Some (take k airflow_catalog).
Proof. do 9 (destruct k as [|k]; [reflexivity|]). reflexivity. Qed.

Lemma raised_not_ok w : ¬ raised w (Ok tt).
Proof. by intros (e & ? & _). Qed.

Lemma duration_rows_raise date_str w :
  task_duration_info (db w) ≠ [] ∨ dag_duration_info (db w) ≠ [] →
  raised w (outcome date_str w).
Proof.
  intros Hrows.
  destruct (collect_shape date_str w)
    as (k & d & t & _ & _ & [(_ & _ & Ht & Hd)|(Hr & _)]); [|done].
  by destruct Hrows.
Qed.


(** ** Duration metrics *)

(** C1, at the failing input. Over a store with one successful run and
    its task instance, the task-duration query returns the interval
    (end 50 s, start 2 s) and the DAG-run-duration query (end 60 s,
    start 2 s); [collect] computes their seconds but emits no sample for
    them: it raises [AttributeError]. Nothing looks at the order of the two
    dates: over the same store with the task instance ending before it
    starts, the run is the same, family for family, and ends in the same
    [AttributeError]. *)
Theorem duration_samples_are_never_emitted :
  duration_intervals store_one_success
  = [(Some 50000000, Some 2000000); (Some 60000000, Some 2000000)]
  ∧ outcome any_date_str (world_of store_one_success) = Raise AttributeError
  ∧ duration_samples (yielded any_date_str (world_of store_one_success)) = []
  ∧ duration_intervals store_end_before_start
    = [(Some 2000000, Some 50000000); (Some 60000000, Some 50000000)]
  ∧ outcome any_date_str (world_of store_end_before_start) = Raise AttributeError
  ∧ yielded any_date_str (world_of store_end_before_start)
    = yielded any_date_str (world_of store_one_success).
Proof. repeat split; reflexivity. Qed.



(** The float that the duration loops rebind their family to has no
    [add_metric]. *)
Lemma add_metric_on_float x labels y :
  add_metric (Float x) labels y = Raise AttributeError.
Proof. reflexivity. Qed.

(** On a store with a successful run and a task instance in it, the scrape
    stops in the task-duration loop, having yielded the task-status family
    only. *)
Lemma scrape_of_one_success date_str :
  yielded date_str (world_of store_one_success)
  = take 1 (families store_one_success [] [])
  ∧ outcome date_str (world_of store_one_success) = Raise AttributeError.
Proof. split; reflexivity. Qed.

(** ** The metric catalog *)

(** C5, amended. A call to [collect] that runs to completion yields exactly
    eight gauge families, with the names (prefixed [airflow_]) and label
    schemas of [airflow_catalog], in its order: task status, task duration,
    task failure count, dag status, dag run duration, dag scheduler delay,
    task scheduler delay, number of queued tasks. *)
Theorem completed_collect_yields_catalog date_str w :
  outcome date_str w = Ok tt →
  map schema (yielded date_str w) = map Some airflow_catalog.
Proof.
  intros Hok.
  destruct (collect_shape date_str w)
    as (k & d & t & Hys & _ & [(_ & -> & _)|(Hr & _)]).
  - by rewrite Hys, schema_families.
  - rewrite Hok in Hr. by apply raised_not_ok in Hr.
Qed.

Lemma completed_collect_yields_catalog_witness :
  outcome any_date_str (world_of empty_store) = Ok tt
  ∧ map schema (yielded any_date_str (world_of empty_store))
    = map Some airflow_catalog.
Proof.
  split; [reflexivity|].
  apply (completed_collect_yields_catalog any_date_str (world_of empty_store)).
  reflexivity.
Defined.

(** C5 as stated fails: over the empty store the families do not bear the
    names of the specification's catalog, and over a store with a
    successful run [collect] does not yield eight families. *)
Lemma collect_does_not_yield_spec_catalog :
  map schema (yielded any_date_str (world_of empty_store)) ≠ map Some spec_catalog
  ∧ length (yielded any_date_str (world_of store_one_success)) ≠ 8%nat.
Proof. split; vm_compute; discriminate. Qed.

(** X15. Whatever happens, the families yielded are an initial segment of
    the catalog: in its order, none skipped, none twice. *)
Lemma yielded_prefix_of_catalog date_str w :
  map schema (yielded date_str w) `prefix_of` map Some airflow_catalog.
Proof.
  destruct (collect_shape date_str w) as (k & d & t & -> & _).
  rewrite schema_families, fmap_take. apply prefix_take.
Qed.

(** ** The empty store and the queued-task count *)

(** Over the empty store every family is yielded; all are empty but the
    last, whose single unlabelled sample is 0. *)
Lemma scrape_of_empty_store date_str :
  yielded date_str (world_of empty_store) = families empty_store [] []
  ∧ outcome date_str (world_of empty_store) = Ok tt
  ∧ samples_of "airflow_num_queued_tasks" (yielded date_str (world_of empty_store))
    = [mkSample "airflow_num_queued_tasks" [] (inject_Z 0)].
Proof. repeat split; reflexivity. Qed.

(** A scrape that completes emits one unlabelled sample under the
    queued-task family: the number of task instances in state [queued]. *)
Lemma queued_sample_of_completed_scrape date_str w :
  outcome date_str w = Ok tt →
  samples_of "airflow_num_queued_tasks" (yielded date_str w)
  = [mkSample "airflow_num_queued_tasks" []
       (inject_Z (Z.of_nat (length (queued_tasks (db w)))))].
Proof.
  intros Hok.
  destruct (collect_shape date_str w)
    as (k & d & t & Hys & _ & [(_ & -> & _)|(Hr & _)]).
  - rewrite Hys. reflexivity.
  - rewrite Hok in Hr. by apply raised_not_ok in Hr.
Qed.

(** C6, at the failing input. Over a store with one successful run and its
    task instance, [collect] raises [AttributeError] in the task-duration
    loop: seven of the eight families are not yielded, and no sample of the
    queued-task count is emitted. *)
Theorem queued_count_lost_when_duration_loop_fails :
  outcome any_date_str (world_of store_one_success) = Raise AttributeError
  ∧ map schema (yielded any_date_str (world_of store_one_success))
    = map Some (take 1 airflow_catalog)
  ∧ samples_of "airflow_num_queued_tasks"
      (yielded any_date_str (world_of store_one_success)) = [].
Proof. repeat split; reflexivity. Qed.

(** ** Purity and the store *)

(** C8. [collect] is a function of the store's contents: from two worlds
    over the same store contents, whatever their histories, it yields the
    same families with the same samples and ends the same way; and it leaves
    the contents as they were, so that scrapes can follow one another. *)
Theorem collect_is_function_of_store date_str w1 w2 :
  db w1 = db w2 → refused w1 = refused w2 →
  yielded date_str w1 = yielded date_str w2
  ∧ outcome date_str w1 = outcome date_str w2
  ∧ same_store (after date_str w1) w1.
Proof.
  intros Hdb Hre. destruct (reader_collect date_str) as [Hs Hr].
  assert ((collect date_str w1).1 = (collect date_str w2).1) as E
    by (by apply Hs).
  unfold yielded, outcome, after. rewrite E. auto.
Qed.

(** The second of two scrapes in a row starts where the first ended. *)
Lemma collect_is_function_of_store_witness :
  (db (world_of store_shared_queue)
   = db (after any_date_str (world_of store_shared_queue))
   ∧ refused (world_of store_shared_queue)
     = refused (after any_date_str (world_of store_shared_queue)))
  ∧ yielded any_date_str (world_of store_shared_queue)
    = yielded any_date_str (after any_date_str (world_of store_shared_queue))
  ∧ outcome any_date_str (world_of store_shared_queue)
    = outcome any_date_str (after any_date_str (world_of store_shared_queue))
  ∧ same_store (after any_date_str (world_of store_shared_queue))
               (world_of store_shared_queue).
Proof.
  split; [split; reflexivity|].
  apply (collect_is_function_of_store any_date_str
           (world_of store_shared_queue)
           (after any_date_str (world_of store_shared_queue))); reflexivity.
Defined.

(** Two scrapes in a row, from any world. *)
Lemma collect_twice date_str w :
  yielded date_str (after date_str w) = yielded date_str w
  ∧ outcome date_str (after date_str w) = outcome date_str w.
Proof.
  destruct (reader_collect date_str) as [Hs Hr].
  assert ((collect date_str (after date_str w)).1 = (collect date_str w).1) as E
    by (apply Hs, Hr).
  unfold yielded, outcome. by rewrite E.
Qed.

(** C9. No operation writes to the store: after each of the eight
    query-layer operations, after the iteration of the query that
    [get_task_failure_counts] returns, and after a whole [collect], the
    contents of the store are what they were before. *)
Theorem exporter_leaves_store_unchanged date_str w :
  db (get_dag_state_info w).2 = db w
  ∧ db (get_dag_duration_info w).2 = db w
  ∧ db (get_task_state_info w).2 = db w
  ∧ db (get_task_failure_counts w).2 = db w
  ∧ (∀ q : Query TaskFailureRow.t, db (iter q w).2 = db w)
  ∧ db (get_task_duration_info w).2 = db w
  ∧ db (get_dag_scheduler_delay w).2 = db w
  ∧ db (get_task_scheduler_delay w).2 = db w
  ∧ db (get_num_queued_tasks w).2 = db w
  ∧ db (after date_str w) = db w.
Proof.
  repeat split;
    try (intros q; apply (reader_M_execute q));
    try apply (reader_M_scoped_all _ _);
    try apply reader_M_get_task_failure_counts;
    try apply reader_M_get_num_queued_tasks.
  apply (reader_collect date_str).
Qed.

(** ** Session scopes *)

(** The seven operations that end in [all()] or [count()] execute their
    statement inside their scope, and close the session whether the
    statement succeeds, returns no row, or is refused. *)
Lemma scoped_operations_trace w :
  trace (get_dag_state_info w).2
  = trace w ++ [SessionEnter; Execute DagStateInfo; SessionClose]
  ∧ trace (get_dag_duration_info w).2
    = trace w ++ [SessionEnter; Execute DagDurationInfo; SessionClose]
  ∧ trace (get_task_state_info w).2
    = trace w ++ [SessionEnter; Execute TaskStateInfo; SessionClose]
  ∧ trace (get_task_duration_info w).2
    = trace w ++ [SessionEnter; Execute TaskDurationInfo; SessionClose]
  ∧ trace (get_dag_scheduler_delay w).2
    = trace w ++ [SessionEnter; Execute DagSchedulerDelay; SessionClose]
  ∧ trace (get_task_scheduler_delay w).2
    = trace w ++ [SessionEnter; Execute TaskSchedulerDelay; SessionClose]
  ∧ trace (get_num_queued_tasks w).2
    = trace w ++ [SessionEnter; Execute NumQueuedTasks; SessionClose].
Proof.
  unfold get_dag_state_info, get_dag_duration_info, get_task_state_info,
    get_task_duration_info, get_dag_scheduler_delay, get_task_scheduler_delay.
  rewrite !run_scoped_all, run_get_num_queued_tasks. cbn [snd].
  by rewrite !trace_closed.
Qed.

(** [get_task_failure_counts] closes its session without having executed
    anything; the statement runs when the caller iterates the query. *)
Lemma task_failure_counts_trace w :
  trace ((get_task_failure_counts ≫= iter) w).2
  = trace w ++ [SessionEnter; SessionClose; Execute TaskFailureCounts].
Proof.
  unfold mbind, M_bind. rewrite run_get_task_failure_counts, run_iter. simpl.
  by rewrite <- !app_assoc.
Qed.

(** C10, at the failing input. Over the empty store,
    [get_task_failure_counts] followed by the iteration of its result, as
    [collect] does, executes the statement after the session scope has been
    left; so does the whole scrape. *)
Theorem task_failure_statement_runs_after_close :
  trace ((get_task_failure_counts ≫= iter) (world_of empty_store)).2
  = [SessionEnter; SessionClose; Execute TaskFailureCounts]
  ∧ in_scope false
      (trace ((get_task_failure_counts ≫= iter) (world_of empty_store)).2) = false
  ∧ in_scope false (trace (after any_date_str (world_of empty_store))) = false.
Proof. repeat split; reflexivity. Qed.

(** ** Canary scoping of the scheduler delays *)

Lemma elem_of_insert_desc {A} (key : A → Z) a l x :
  x ∈ insert_desc key a l ↔ x = a ∨ x ∈ l.
Proof.
  induction l as [|b l IH]; simpl.
  - rewrite list_elem_of_singleton, elem_of_nil. tauto.
  - case_decide; rewrite !elem_of_cons; [tauto|]. rewrite IH. tauto.
Qed.

Lemma elem_of_order_by_desc {A} (key : A → Z) l x :
  x ∈ order_by_desc key l ↔ x ∈ l.
Proof.
  induction l as [|a l IH]; simpl; [done|].
  rewrite elem_of_insert_desc, IH, elem_of_cons. tauto.
Qed.

(** The DAG-level delay rows are rows of runs of the canary workflow. *)
Lemma dag_delay_rows_are_canary s row :
  row ∈ dag_scheduler_delay s →
  ∃ r, r ∈ dag_run s ∧ DagRun.dag_id r = CANARY_DAG
       ∧ row = DagDelayRow.mk (DagRun.dag_id r) (DagRun.execution_date r)
                              (DagRun.start_date r).
Proof.
  unfold dag_scheduler_delay. intros Hrow.
  apply list_elem_of_fmap in Hrow as (r & -> & Hr).
  apply elem_of_take in Hr as (i & Hr & _).
  apply list_elem_of_lookup_2, elem_of_order_by_desc, list_elem_of_filter in Hr
    as [Hc Hr].
  eauto.
Qed.

(** C3, at the failing input. A task instance of another workflow that sits
    in the same queue as a canary task instance and started at the same
    instant is joined to the canary's row: the task-level delay metric gets
    a second sample, 60 seconds, computed from the [queued_dttm] of a task
    instance that does not belong to the canary workflow. *)
Theorem task_delay_joins_other_workflows :
  task_scheduler_delay store_shared_queue
  = [TaskDelayRow.mk (Some "default") 0 (Some 90000000) (Some 100000000);
     TaskDelayRow.mk (Some "default") 0 (Some 40000000) (Some 100000000)]
  ∧ samples_of "airflow_task_scheduler_delay"
      (yielded any_date_str (world_of store_shared_queue))
    = [mkSample "airflow_task_scheduler_delay" [("queue", Some "default")]
                (total_seconds 10000000);
       mkSample "airflow_task_scheduler_delay" [("queue", Some "default")]
                (total_seconds 60000000)]
  ∧ ∀ ti, ti ∈ task_instance store_shared_queue →
          TaskInstance.queued_dttm ti = Some 40000000 →
          TaskInstance.dag_id ti ≠ CANARY_DAG.
Proof.
  split; [reflexivity|]. split; [reflexivity|].
  intros ti Hti Hq. unfold store_shared_queue in Hti; simpl in Hti.
  apply elem_of_cons in Hti as [->|Hti]; [discriminate|].
  apply list_elem_of_singleton in Hti as ->. discriminate.
Qed.

(** ** State counts and the NULL state *)

Lemma or_none_null : or_none None = "none".
Proof. reflexivity. Qed.

(** X18. Unless its statement is refused, the task-status family is yielded
    (even when the scrape fails later) with
    exactly one sample per row of the task-status query, in their order:
    labels (dag_id, task_id, owner, status), the value being the row's
    count, and a NULL state giving the status ["none"]. *)
Lemma task_status_one_sample_per_row date_str w :
  refused w TaskStateInfo = false →
  samples_of "airflow_task_status" (yielded date_str w)
  = map (λ r, mkSample "airflow_task_status"
                [("dag_id", Some (TaskStateRow.dag_id r));
                 ("task_id", Some (TaskStateRow.task_id r));
                 ("owner", TaskStateRow.owners r);
                 ("status", Some (or_none (TaskStateRow.state r)))]
                (inject_Z (TaskStateRow.value r)))
        (task_state_info (db w)).
Proof.
  intros Hok.
  destruct (collect_shape date_str w) as (k & d & t & -> & Hk & _).
  specialize (Hk Hok). destruct k as [|k]; [lia|].
  do 8 (destruct k as [|k]; [simpl; by rewrite ?app_nil_r|]).
  simpl. by rewrite app_nil_r.
Qed.

(** C4, at the failing input. A run with a NULL state makes a row of the
    DAG-status query whose state is NULL; its sample carries no status
    label value at all, where the task-status family would say ["none"]. *)
Theorem null_run_state_has_no_sentinel :
  dag_state_info store_null_run_state
  = [DagStateRow.mk "etl_daily" None 0 (Some "airflow")]
  ∧ samples_of "airflow_dag_status"
      (yielded any_date_str (world_of store_null_run_state))
    = [mkSample "airflow_dag_status"
         [("dag_id", Some "etl_daily"); ("owner", Some "airflow");
          ("status", None)]
         (inject_Z 0)].
Proof. split; reflexivity. Qed.

(** ** The relational algebra *)

Lemma elem_of_join {A B} (on : A → B → Prop) `{∀ a b, Decision (on a b)}
    (l : list A) (r : list B) a b :
  (a, b) ∈ join on l r ↔ a ∈ l ∧ b ∈ r ∧ on a b.
Proof.
  unfold join. rewrite list_elem_of_In, in_flat_map. split.
  - intros (a' & Ha' & Hab). apply list_elem_of_In in Ha', Hab.
    apply list_elem_of_fmap in Hab as (b' & [= -> ->] & Hb').
    apply list_elem_of_filter in Hb' as [Hon Hb']. done.
  - intros (Ha & Hb & Hon). exists a. rewrite <- !list_elem_of_In.
    split; [done|]. apply list_elem_of_fmap. exists b. split; [done|].
    by apply list_elem_of_filter.
Qed.

Lemma elem_of_group_by {A K} `{EqDecision K} (key : A → K) (l : list A) k g :
  (k, g) ∈ group_by key l
  ↔ (∃ a, a ∈ l ∧ key a = k) ∧ g = filter (λ a, key a = k) l.
Proof.
  unfold group_by. rewrite list_elem_of_fmap. split.
  - intros (k' & [= -> ->] & Hk). split; [|done].
    apply elem_of_remove_dups, list_elem_of_fmap in Hk as (a & -> & Ha). eauto.
  - intros [(a & Ha & <-) ->]. exists (key a). split; [done|].
    apply elem_of_remove_dups, list_elem_of_fmap. eauto.
Qed.

Lemma NoDup_group_by_keys {A K} `{EqDecision K} (key : A → K) (l : list A) :
  NoDup (map fst (group_by key l)).
Proof.
  unfold group_by. rewrite map_map. simpl. rewrite map_id.
  apply NoDup_remove_dups.
Qed.

(** The rows of a join that come from one row of its left side, when that
    row occurs once. *)
Lemma filter_join_left {A B} `{EqDecision A} (on : A → B → Prop)
    `{∀ a b, Decision (on a b)} (l : list A) (r : list B) m :
  NoDup l → m ∈ l →
  filter (λ p, p.1 = m) (join on l r) = map (pair m) (filter (on m) r).
Proof.
  unfold join. induction l as [|a l IH]; intros Hnd Hm.
  - by apply elem_of_nil in Hm.
  - apply NoDup_cons in Hnd as [Ha Hnd]. simpl. rewrite filter_app.
    assert (∀ (x : A) (bs : list B), x ≠ m →
              filter (λ p : A * B, p.1 = m) (map (pair x) bs) = []) as Hout.
    { intros x bs Hx. induction bs as [|b bs IHbs]; [done|]. simpl.
      by rewrite filter_cons_False. }
    assert (∀ bs : list B,
              filter (λ p : A * B, p.1 = m) (map (pair m) bs) = map (pair m) bs)
      as Hin.
    { intros bs. induction bs as [|b bs IHbs]; [done|]. simpl.
      rewrite filter_cons_True by done. by rewrite IHbs. }
    apply elem_of_cons in Hm as [->|Hm].
    + rewrite Hin.
      assert (filter (λ p : A * B, p.1 = a)
                (flat_map (λ a0, map (pair a0) (filter (on a0) r)) l) = []) as ->.
      { clear IH Hnd. induction l as [|x l IHl]; [done|]. simpl.
        apply not_elem_of_cons in Ha as [Hx Ha].
        rewrite filter_app, Hout by done. by apply IHl. }
      by rewrite app_nil_r.
    + rewrite Hout by (intros ->; done). by apply IH.
Qed.

Lemma foldr_max_spec x xs :
  (foldr Z.max x xs = x ∨ foldr Z.max x xs ∈ xs)
  ∧ x ≤ foldr Z.max x xs ∧ ∀ y, y ∈ xs → y ≤ foldr Z.max x xs.
Proof.
  induction xs as [|z xs (Hin & Hx & Hall)]; simpl.
  - split; [by left|]. split; [lia|]. intros y Hy. by apply elem_of_nil in Hy.
  - split; [|split].
    + destruct (Z.max_spec z (foldr Z.max x xs)) as [[_ ->]|[_ ->]].
      * destruct Hin as [?|?]; [by left|right; by apply elem_of_cons; right].
      * right. apply elem_of_cons. by left.
    + lia.
    + intros y [->|Hy]%elem_of_cons; [lia|]. specialize (Hall y Hy). lia.
Qed.

Lemma non_null_some {A B} (f : A → B) (l : list A) :
  non_null (map (λ r, Some (f r)) l) = map f l.
Proof.
  unfold non_null. induction l as [|a l IH]; [done|]. simpl.
  by rewrite <- IH.
Qed.

(** [max] over a non-NULL column of a non-empty group: the value of one of
    its rows, which no row exceeds. *)
Lemma sql_max_spec {A} (f : A → Z) (l : list A) :
  l ≠ [] →
  ∃ a, a ∈ l ∧ sql_max (map (λ r, Some (f r)) l) = Some (f a)
       ∧ ∀ a', a' ∈ l → f a' ≤ f a.
Proof.
  intros Hl. unfold sql_max. rewrite non_null_some.
  destruct l as [|a l]; [done|]. simpl.
  destruct (foldr_max_spec (f a) (map f l)) as (Hin & Hx & Hall).
  destruct Hin as [E|Hin].
  - exists a. rewrite E. split; [by left|]. split; [done|].
    intros a' [->|Ha']%elem_of_cons; [lia|]. rewrite <- E. apply Hall.
    by apply list_elem_of_fmap_2.
  - apply list_elem_of_fmap in Hin as (b & E & Hb).
    exists b. rewrite E. split; [by right|]. split; [done|].
    intros a' [->|Ha']%elem_of_cons; [lia|]. rewrite <- E. apply Hall.
    by apply list_elem_of_fmap_2.
Qed.

Lemma NoDup_fmap_eq {A K} (f : A → K) (l : list A) x y :
  NoDup (map f l) → x ∈ l → y ∈ l → f x = f y → x = y.
Proof.
  induction l as [|a l IH]; intros Hnd Hx Hy E.
  - by apply elem_of_nil in Hx.
  - simpl in Hnd. apply NoDup_cons in Hnd as [Ha Hnd].
    apply elem_of_cons in Hx as [->|Hx]; apply elem_of_cons in Hy as [->|Hy].
    + done.
    + exfalso. apply Ha. rewrite E. by apply list_elem_of_fmap_2.
    + exfalso. apply Ha. rewrite <- E. by apply list_elem_of_fmap_2.
    + by apply IH.
Qed.

(** ** The latest successful run *)

(** The rows of [max_execution_dt_query]: one per workflow that has a
    successful ended run, with the execution date of the latest one. *)
Lemma max_execution_dt_spec s d e :
  (d, e) ∈ max_execution_dt_query s →
  ∃ r, r ∈ dag_run s ∧ completed_success r ∧ DagRun.dag_id r = d
       ∧ e = Some (DagRun.execution_date r)
       ∧ ∀ r', r' ∈ dag_run s → DagRun.dag_id r' = d → completed_success r' →
               DagRun.execution_date r' ≤ DagRun.execution_date r.
Proof.
  unfold max_execution_dt_query. intros Hin.
  apply list_elem_of_fmap in Hin as ([d' runs] & [= -> ->] & Hg).
  apply elem_of_group_by in Hg as [(r0 & Hr0 & Hd) ->].
  destruct (sql_max_spec DagRun.execution_date
              (filter (λ a, DagRun.dag_id a = d')
                      (filter completed_success (dag_run s))))
    as (r & Hr & -> & Hmax).
  { intros E. assert (r0 ∈ filter (λ a, DagRun.dag_id a = d')
                        (filter completed_success (dag_run s))) as Hr0'
      by (by apply list_elem_of_filter).
    rewrite E in Hr0'. by apply elem_of_nil in Hr0'. }
  apply list_elem_of_filter in Hr as [Hrd Hr].
  apply list_elem_of_filter in Hr as [Hrc Hr].
  exists r. do 4 (split; [done|]).
  intros r' Hr' Hd' Hc'. apply Hmax.
  apply list_elem_of_filter. split; [done|]. by apply list_elem_of_filter.
Qed.

Lemma NoDup_max_execution_dt_query s : NoDup (max_execution_dt_query s).
Proof.
  apply (NoDup_fmap_1 fst). unfold max_execution_dt_query.
  rewrite <- list_fmap_compose.
  pose proof (NoDup_group_by_keys DagRun.dag_id
                (filter completed_success (dag_run s))) as Hnd.
  erewrite list_fmap_ext; [exact Hnd|]. by intros i [d rows] _.
Qed.

(** Every row of the DAG-run-duration query is made from the latest
    successful run of its workflow: its end date is that run's, its start
    date the earliest start of that run's task instances. *)
Lemma dag_duration_row_spec s row :
  dag_run_key_unique s →
  row ∈ dag_duration_info s →
  ∃ r, latest_successful_run s r
       ∧ DagDurationRow.dag_id row = DagRun.dag_id r
       ∧ DagDurationRow.end_date row = DagRun.end_date r
       ∧ DagDurationRow.start_date row
         = sql_min (map TaskInstance.start_date (tasks_of_run s r)).
Proof.
  intros Hkey Hrow. unfold dag_duration_info in Hrow.
  apply list_elem_of_fmap in Hrow as ([[[d e] sd] r] & -> & Hj).
  apply elem_of_join in Hj as (Hq & Hr & Hd & He). simpl in Hd, He.
  unfold dag_start_dt_query in Hq.
  apply list_elem_of_fmap in Hq as ([[d' e'] rows] & [= -> -> ->] & Hg).
  apply elem_of_group_by in Hg as [([m ti] & Hm & Hk) ->]. simpl in Hk. subst m.
  apply elem_of_join in Hm as (Hm & _).
  destruct (max_execution_dt_spec s d' e' Hm)
    as (r0 & Hr0 & Hc0 & Hd0 & -> & Hmax).
  simpl in He.
  assert (r = r0) as ->.
  { apply (NoDup_fmap_eq _ _ _ _ Hkey Hr Hr0). by rewrite Hd, Hd0, He. }
  exists r0. split; [|split; [done|split; [done|]]].
  - split; [done|]. split; [done|]. intros r' Hr' Hd' Hc'.
    apply Hmax; [done | congruence | done].
  - simpl. rewrite filter_join_left; [|apply NoDup_max_execution_dt_query|done].
    rewrite map_map. simpl. f_equal. f_equal. unfold tasks_of_run.
    apply list_filter_iff. intros ti'. simpl. rewrite Hd0. 
    split; intros [? ?]; split; congruence.
Qed.

Lemma latest_successful_run_unique s r r' :
  dag_run_key_unique s →
  latest_successful_run s r → latest_successful_run s r' →
  DagRun.dag_id r = DagRun.dag_id r' → r = r'.
Proof.
  intros Hkey (Hr & Hc & Hmax) (Hr' & Hc' & Hmax') Hd.
  apply (NoDup_fmap_eq _ _ _ _ Hkey Hr Hr'). f_equal; [done|].
  specialize (Hmax r' Hr' (eq_sym Hd) Hc').
  specialize (Hmax' r Hr Hd Hc). lia.
Qed.

(** C7. Under the unique key (dag_id, execution_date) of the run table,
    every row of the DAG-run-duration query is derived from the latest
    successful run of its workflow, the run with the greatest execution date
    among the runs of the workflow whose state is success and whose end date
    is not NULL: the row has that run's end date, and the earliest start
    date of that run's task instances; and the workflow has no other row. *)
Theorem dag_duration_from_latest_successful_run s row :
  dag_run_key_unique s →
  row ∈ dag_duration_info s →
  ∃ r, latest_successful_run s r
       ∧ DagDurationRow.dag_id row = DagRun.dag_id r
       ∧ DagDurationRow.end_date row = DagRun.end_date r
       ∧ DagDurationRow.start_date row
         = sql_min (map TaskInstance.start_date (tasks_of_run s r))
       ∧ ∀ row', row' ∈ dag_duration_info s →
                 DagDurationRow.dag_id row' = DagDurationRow.dag_id row →
                 row' = row.
Proof.
  intros Hkey Hrow.
  destruct (dag_duration_row_spec s row Hkey Hrow) as (r & Hl & Hd & He & Hs).
  exists r. do 4 (split; [done|]). intros row' Hrow' Hd'.
  destruct (dag_duration_row_spec s row' Hkey Hrow')
    as (r' & Hl' & Hdr' & He' & Hs').
  assert (r' = r) as ->.
  { apply (latest_successful_run_unique s); [done..|congruence]. }
  destruct row, row'; simpl in *. congruence.
Qed.

Lemma dag_duration_from_latest_successful_run_witness :
  (dag_run_key_unique store_one_success
   ∧ DagDurationRow.mk "etl_daily" (Some 2000000) (Some 60000000)
       ∈ dag_duration_info store_one_success)
  ∧ ∃ r, latest_successful_run store_one_success r
       ∧ "etl_daily" = DagRun.dag_id r
       ∧ Some 60000000 = DagRun.end_date r
       ∧ Some 2000000
         = sql_min (map TaskInstance.start_date (tasks_of_run store_one_success r))
       ∧ ∀ row', row' ∈ dag_duration_info store_one_success →
                 DagDurationRow.dag_id row' = "etl_daily" →
                 row' = DagDurationRow.mk "etl_daily" (Some 2000000) (Some 60000000).
Proof.
  assert (dag_run_key_unique store_one_success) as Hkey.
  { unfold dag_run_key_unique. simpl. apply NoDup_singleton. }
  assert (DagDurationRow.mk "etl_daily" (Some 2000000) (Some 60000000)
            ∈ dag_duration_info store_one_success) as Hrow.
  { vm_compute. apply list_elem_of_here. }
  split; [by split|].
  exact (dag_duration_from_latest_successful_run store_one_success
           (DagDurationRow.mk "etl_daily" (Some 2000000) (Some 60000000))
           Hkey Hrow).
Defined.

(** Without the unique key the query also returns the rows of other runs
    that share the execution date of the latest successful one. *)
Lemma dag_duration_needs_unique_key :
  dag_duration_info
    (mkStore []
       [DagRun.mk "etl_daily" (Some "success") 0 (Some 1) (Some 9);
        DagRun.mk "etl_daily" (Some "failed") 0 (Some 1) (Some 5)]
       [TaskInstance.mk "etl_daily" "extract" 0 None None (Some 2) None None]
       [])
  = [DagDurationRow.mk "etl_daily" (Some 2) (Some 9);
     DagDurationRow.mk "etl_daily" (Some 2) (Some 5)].
Proof. reflexivity. Qed.

(** Conversely, the latest successful run of a workflow gives a row as soon
    as one task instance belongs to it. *)
Lemma latest_run_gives_duration_row s r ti :
  latest_successful_run s r → ti ∈ tasks_of_run s r →
  ∃ row, row ∈ dag_duration_info s
         ∧ DagDurationRow.dag_id row = DagRun.dag_id r
         ∧ DagDurationRow.end_date row = DagRun.end_date r.
Proof.
  intros (Hr & Hc & Hmax) Hti.
  apply list_elem_of_filter in Hti as [[Htd Hte] Hti].
  set (runs := filter (λ a, DagRun.dag_id a = DagRun.dag_id r)
                      (filter completed_success (dag_run s))).
  assert (r ∈ runs) as Hrg.
  { apply list_elem_of_filter. split; [done|]. by apply list_elem_of_filter. }
  assert ((DagRun.dag_id r, Some (DagRun.execution_date r))
            ∈ max_execution_dt_query s) as Hm.
  { unfold max_execution_dt_query. apply list_elem_of_fmap.
    exists (DagRun.dag_id r, runs). split.
    - f_equal.
      destruct (sql_max_spec DagRun.execution_date runs) as (a & Ha & -> & Hge).
      { intros E. rewrite E in Hrg. by apply elem_of_nil in Hrg. }
      f_equal. apply list_elem_of_filter in Ha as [Had Ha].
      apply list_elem_of_filter in Ha as [Hac Ha].
      specialize (Hge r Hrg). specialize (Hmax a Ha Had Hac). lia.
    - apply elem_of_group_by. split; [|done]. exists r. split; [|done].
      by apply list_elem_of_filter. }
  set (m := (DagRun.dag_id r, Some (DagRun.execution_date r))) in *.
  set (J := join (λ (m : string * option Z) ti,
                    TaskInstance.dag_id ti = m.1
                    ∧ sql_eq (Some (TaskInstance.execution_date ti)) m.2)
                 (max_execution_dt_query s) (task_instance s)).
  assert ((m, ti) ∈ J) as HJ by (by apply elem_of_join).
  set (rows := filter (λ p : (string * option Z) * TaskInstance.t, p.1 = m) J).
  assert ((m, rows) ∈ group_by (λ p : (string * option Z) * TaskInstance.t, p.1) J)
    as Hg.
  { apply elem_of_group_by. split; [|done]. by exists (m, ti). }
  assert ((DagRun.dag_id r, Some (DagRun.execution_date r),
           sql_min (map (λ p : (string * option Z) * TaskInstance.t,
                           TaskInstance.start_date p.2) rows))
            ∈ dag_start_dt_query s) as Hq.
  { unfold dag_start_dt_query. apply list_elem_of_fmap. by exists (m, rows). }
  eexists. split.
  - unfold dag_duration_info. apply list_elem_of_fmap. eexists (_, r).
    split; [reflexivity|]. by apply elem_of_join.
  - done.
Qed.

(** A successful run without any task instance gives no row in either
    duration query: the scrape then completes. *)
Lemma scrape_of_run_without_tasks date_str :
  let s := mkStore [DagModel.mk "etl_daily" (Some "airflow")]
                   [DagRun.mk "etl_daily" (Some "success") 0 (Some 1) (Some 9)]
                   [] [] in
  task_duration_info s = [] ∧ dag_duration_info s = []
  ∧ outcome date_str (world_of s) = Ok tt.
Proof. repeat split; reflexivity. Qed.

(** X17. A store in which the latest successful run of some workflow has
    a task instance never gets through a scrape: [collect] raises. *)
Lemma successful_run_with_task_aborts date_str w r ti :
  latest_successful_run (db w) r → ti ∈ tasks_of_run (db w) r →
  raised w (outcome date_str w).
Proof.
  intros Hr Hti. apply duration_rows_raise. right.
  destruct (latest_run_gives_duration_row (db w) r ti Hr Hti) as (row & Hrow & _).
  intros E. rewrite E in Hrow. by apply elem_of_nil in Hrow.
Qed.

(** * The query layer, function by function *)

(** ** State counts *)

Lemma non_null_constant {A B} (f : A → option B) (l : list A) v :
  (∀ a, a ∈ l → f a = v) →
  length (non_null (map f l))
  = match v with Some _ => length l | None => 0%nat end.
Proof.
  intros Hall. unfold non_null. induction l as [|a l IH]; [by destruct v|].
  assert (∀ a', a' ∈ l → f a' = v) as Hl
    by (intros a' Ha'; apply Hall; by right).
  specialize (IH Hl). cbn [map omap list_omap]. rewrite (Hall a) by (by left).
  destruct v; cbn [id length]; [f_equal|]; exact IH.
Qed.

(** [count(col)] over a group in which the column has one value. *)
Lemma sql_count_constant {A B} (f : A → option B) (l : list A) v :
  (∀ a, a ∈ l → f a = v) →
  sql_count (map f l) = match v with
                        | Some _ => Z.of_nat (length l)
                        | None => 0
                        end.
Proof.
  intros Hall. unfold sql_count. rewrite (non_null_constant f l v Hall).
  by destruct v.
Qed.

Lemma filter_pair_key {A K1 K2} `{EqDecision K1, EqDecision K2}
    (f : A → K1) (g : A → K2) (l : list A) k1 k2 :
  filter (λ a, (f a, g a) = (k1, k2)) l = filter (λ a, f a = k1 ∧ g a = k2) l.
Proof. apply list_filter_iff. intros a. split; [by intros [= -> ->] | by intros [-> ->]]. Qed.

(** X1. [get_dag_state_info] returns the row (d, st, c, o) exactly when
    workflow [d] has a run in state [st] and a [DagModel] row with owners
    [o] (runs of a workflow without one are dropped by the inner join); [c]
    is the number of runs of [d] in state [st], except for the NULL state,
    whose count is 0 because [count(DagRun.state)] skips NULLs. *)
Theorem dag_state_info_rows s d st c o :
  DagStateRow.mk d st c o ∈ dag_state_info s
  ↔ runs_in_state s d st ≠ []
    ∧ (∃ m, m ∈ dag s ∧ DagModel.dag_id m = d ∧ DagModel.owners m = o)
    ∧ c = match st with
          | Some _ => Z.of_nat (length (runs_in_state s d st))
          | None => 0
          end.
Proof.
  unfold dag_state_info, dag_status_query, runs_in_state.
  rewrite list_elem_of_fmap. split.
  - intros ([[[d' st'] c'] m] & [= E1 E2 E3 E4] & Hj). subst d' st' c' o.
    apply elem_of_join in Hj as (Hq & Hm & Hd). simpl in Hd.
    apply list_elem_of_fmap in Hq as ([[d0 st0] g] & [= E1 E2 E3] & Hg).
    subst d0 st0 c.
    apply elem_of_group_by in Hg as [(r & Hr & [= Hrd Hrs]) ->].
    rewrite filter_pair_key. split; [|split].
    + intros E. assert (r ∈ filter (λ a, DagRun.dag_id a = d ∧ DagRun.state a = st)
                              (dag_run s)) as Hin by (by apply list_elem_of_filter).
      rewrite E in Hin. by apply elem_of_nil in Hin.
    + by exists m.
    + apply sql_count_constant. by intros a [[_ ?] _]%list_elem_of_filter.
  - intros (Hne & (m & Hm & Hd & Ho) & ->).
    exists (d, st, sql_count (map DagRun.state
                       (filter (λ r, (DagRun.dag_id r, DagRun.state r) = (d, st))
                               (dag_run s))), m).
    split.
    + subst o. f_equal. rewrite filter_pair_key. symmetry.
      apply sql_count_constant. by intros a [[_ ?] _]%list_elem_of_filter.
    + apply elem_of_join. split; [|done]. apply list_elem_of_fmap.
      eexists ((d, st), _). split; [reflexivity|]. apply elem_of_group_by.
      split; [|done].
      destruct (filter _ (dag_run s)) as [|r g] eqn:E; [done|].
      assert (r ∈ filter (λ r, DagRun.dag_id r = d ∧ DagRun.state r = st)
                (dag_run s)) as Hin by (rewrite E; by left).
      apply list_elem_of_filter in Hin as [[<- <-] Hin]. by exists r.
Qed.

(** X2. [get_task_state_info] returns the row (d, t, st, v, o) exactly when
    task [t] of workflow [d] has a task instance in state [st] (NULL
    included) and [d] has a [DagModel] row with owners [o]; [v] is the
    number of those task instances, NULL state included, and is at least 1. *)
Theorem task_state_info_rows s d t st v o :
  TaskStateRow.mk d t st v o ∈ task_state_info s
  ↔ (∃ m, m ∈ dag s ∧ DagModel.dag_id m = d ∧ DagModel.owners m = o)
    ∧ v = Z.of_nat (length (tasks_in_state s d t st)) ∧ 1 ≤ v.
Proof.
  unfold task_state_info, task_status_query, tasks_in_state.
  assert (∀ d t st,
            filter (λ r, (TaskInstance.dag_id r, TaskInstance.task_id r,
                          TaskInstance.state r) = (d, t, st)) (task_instance s)
            = filter (λ ti, TaskInstance.dag_id ti = d ∧ TaskInstance.task_id ti = t
                            ∧ TaskInstance.state ti = st) (task_instance s)) as Hf.
  { intros. apply list_filter_iff. intros a.
    split; [by intros [= -> -> ->] | by intros (-> & -> & ->)]. }
  rewrite list_elem_of_fmap. split.
  - intros ([[[[d' t'] st'] v'] m] & [= E1 E2 E3 E4 E5] & Hj).
    subst d' t' st' v' o.
    apply elem_of_join in Hj as (Hq & Hm & Hd). simpl in Hd.
    apply list_elem_of_fmap in Hq as ([[[d0 t0] st0] g] & [= E1 E2 E3 E4] & Hg).
    subst d0 t0 st0 v.
    apply elem_of_group_by in Hg as [(r & Hr & [= Hrd Hrt Hrs]) ->].
    rewrite Hf. split; [by exists m|]. split; [done|].
    assert (r ∈ filter (λ ti, TaskInstance.dag_id ti = d ∧ TaskInstance.task_id ti = t
                             ∧ TaskInstance.state ti = st) (task_instance s)) as Hin
      by (by apply list_elem_of_filter).
    destruct (filter _ (task_instance s)); [by apply elem_of_nil in Hin|].
    simpl. lia.
  - intros ((m & Hm & Hd & Ho) & -> & Hv).
    eexists (d, t, st, _, m). split; [by subst o|].
    apply elem_of_join. split; [|done]. apply list_elem_of_fmap.
    eexists ((d, t, st), _). split; [by rewrite <- Hf|]. apply elem_of_group_by.
    split; [|done].
    destruct (filter _ (task_instance s)) as [|r g] eqn:E; [simpl in Hv; lia|].
    assert (r ∈ filter (λ ti, TaskInstance.dag_id ti = d ∧ TaskInstance.task_id ti = t
                             ∧ TaskInstance.state ti = st) (task_instance s)) as Hin
      by (rewrite E; by left).
    apply list_elem_of_filter in Hin as [(<- & <- & <-) Hin]. by exists r.
Qed.

(** ** Failure counts *)

Lemma total_cons x l : total (x :: l) = x + total l.
Proof. reflexivity. Qed.

(** Groups partition the rows: their sizes add up to the number of rows. *)
Lemma group_sizes_over_keys {A K} `{EqDecision K} (key : A → K) (l : list A)
    (ks : list K) :
  NoDup ks → (∀ a, a ∈ l → key a ∈ ks) →
  total (map (λ k, Z.of_nat (length (filter (λ a, key a = k) l))) ks)
  = Z.of_nat (length l).
Proof.
  intros Hnd. induction l as [|a l IH]; intros Hks.
  - clear Hks Hnd. induction ks as [|k ks IHks]; [done|].
    cbn [map]. rewrite total_cons, IHks. done.
  - assert (∀ a', a' ∈ l → key a' ∈ ks) as Hl
      by (intros a' Ha'; apply Hks; by right).
    specialize (IH Hl). assert (key a ∈ ks) as Ha by (apply Hks; by left).
    assert (total (map (λ k, Z.of_nat (length (filter (λ a0, key a0 = k) (a :: l)))) ks)
            = total (map (λ k, Z.of_nat (length (filter (λ a0, key a0 = k) l))) ks)
              + 1) as ->; [|rewrite IH; simpl length; lia].
    clear IH Hks Hl. induction ks as [|k ks IHks]; [by apply elem_of_nil in Ha|].
    apply NoDup_cons in Hnd as [Hk Hnd]. cbn [map]. rewrite !total_cons.
    destruct (decide (key a = k)) as [E|E].
    + rewrite filter_cons_True by done. simpl length.
      assert (map (λ k, Z.of_nat (length (filter (λ a0, key a0 = k) (a :: l)))) ks
              = map (λ k, Z.of_nat (length (filter (λ a0, key a0 = k) l))) ks)
        as ->; [|lia].
      apply map_ext_in. intros k' Hk'%list_elem_of_In.
      rewrite filter_cons_False; [done|]. intros E'. apply Hk. congruence.
    + rewrite filter_cons_False by done.
      apply elem_of_cons in Ha as [?|Ha]; [done|]. rewrite (IHks Hnd Ha). lia.
Qed.

Lemma group_by_sizes {A K} `{EqDecision K} (key : A → K) (l : list A) :
  total (map (λ g, Z.of_nat (length g.2)) (group_by key l)) = Z.of_nat (length l).
Proof.
  unfold group_by. rewrite map_map. simpl.
  apply group_sizes_over_keys; [apply NoDup_remove_dups|].
  intros a Ha. apply elem_of_remove_dups. by apply list_elem_of_fmap_2.
Qed.

(** X3. The query built by [get_task_failure_counts] has the row (d, t, c)
    exactly when task [t] of workflow [d] has a recorded failure, [c] being
    the number of its failure rows (at least 1); no (d, t) has two rows,
    and the counts add up to the number of rows of the failure log: every
    failure is counted once. *)
Theorem task_failure_counts_rows s :
  (∀ d t c, TaskFailureRow.mk d t c ∈ task_failure_counts s
            ↔ c = Z.of_nat (length (failures_of s d t)) ∧ 1 ≤ c)
  ∧ NoDup (map (λ r, (TaskFailureRow.dag_id r, TaskFailureRow.task_id r))
               (task_failure_counts s))
  ∧ total (map TaskFailureRow.count (task_failure_counts s))
    = Z.of_nat (length (task_fail s)).
Proof.
  unfold task_failure_counts, failures_of. split; [|split].
  - intros d t c. rewrite list_elem_of_fmap. split.
    + intros ([[d' t'] g] & [= E1 E2 E3] & Hg). subst d' t' c.
      apply elem_of_group_by in Hg as [(f & Hf & [= Hfd Hft]) ->].
      rewrite filter_pair_key. split; [done|].
      assert (f ∈ filter (λ a, TaskFail.dag_id a = d ∧ TaskFail.task_id a = t)
                (task_fail s)) as Hin by (by apply list_elem_of_filter).
      destruct (filter _ (task_fail s)); [by apply elem_of_nil in Hin|].
      simpl. lia.
    + intros [-> Hc]. eexists ((d, t), _). split; [by rewrite <- filter_pair_key|].
      apply elem_of_group_by. split; [|done].
      destruct (filter _ (task_fail s)) as [|f g] eqn:E; [simpl in Hc; lia|].
      assert (f ∈ filter (λ f, TaskFail.dag_id f = d ∧ TaskFail.task_id f = t)
                (task_fail s)) as Hin by (rewrite E; by left).
      apply list_elem_of_filter in Hin as [[<- <-] Hin]. by exists f.
  - rewrite map_map.
    erewrite map_ext; [apply (NoDup_group_by_keys
      (λ r, (TaskFail.dag_id r, TaskFail.task_id r)) (task_fail s))|].
    by intros [[d t] g].
  - rewrite map_map.
    erewrite map_ext; [apply (group_by_sizes
      (λ r, (TaskFail.dag_id r, TaskFail.task_id r)) (task_fail s))|].
    by intros [[d t] g].
Qed.

(** ** Task durations *)

(** The rows of [task_duration_query]: one per task that has a finished
    successful task instance, with the execution date of the latest one. *)
Lemma task_duration_query_spec s d t e :
  (d, t, e) ∈ task_duration_query s →
  ∃ ti, ti ∈ task_instance s ∧ finished_success ti
        ∧ TaskInstance.dag_id ti = d ∧ TaskInstance.task_id ti = t
        ∧ e = Some (TaskInstance.execution_date ti)
        ∧ ∀ ti', ti' ∈ task_instance s → TaskInstance.dag_id ti' = d →
                 TaskInstance.task_id ti' = t → finished_success ti' →
                 TaskInstance.execution_date ti' ≤ TaskInstance.execution_date ti.
Proof.
  unfold task_duration_query. intros Hin.
  apply list_elem_of_fmap in Hin as ([[d' t'] g] & [= E1 E2 E3] & Hg).
  subst d' t' e.
  apply elem_of_group_by in Hg as [(ti0 & Hti0 & [= Hd0 Ht0]) ->].
  rewrite filter_pair_key.
  set (g := filter (λ a, TaskInstance.dag_id a = d ∧ TaskInstance.task_id a = t)
                   (filter finished_success (task_instance s))).
  destruct (sql_max_spec TaskInstance.execution_date g) as (ti & Hti & -> & Hmax).
  { intros E. assert (ti0 ∈ g) as Hin by (by apply list_elem_of_filter).
    rewrite E in Hin. by apply elem_of_nil in Hin. }
  apply list_elem_of_filter in Hti as [[Hd Ht] Hti].
  apply list_elem_of_filter in Hti as [Hf Hti].
  exists ti. do 5 (split; [done|]). intros ti' Hti' Hd' Ht' Hf'.
  apply Hmax. apply list_elem_of_filter. split; [done|].
  by apply list_elem_of_filter.
Qed.

(** X4. Every row of [get_task_duration_info] carries the start and end
    dates of a task instance whose execution date is at once that of the
    latest successful run of its workflow and that of the latest finished
    successful instance of its task: a task that did not succeed in the
    workflow's latest successful run has no row. *)
Theorem task_duration_info_rows s row :
  row ∈ task_duration_info s →
  ∃ ti r ti0,
    ti ∈ task_instance s
    ∧ TaskDurationRow.dag_id row = TaskInstance.dag_id ti
    ∧ TaskDurationRow.task_id row = TaskInstance.task_id ti
    ∧ TaskDurationRow.start_date row = TaskInstance.start_date ti
    ∧ TaskDurationRow.end_date row = TaskInstance.end_date ti
    ∧ TaskDurationRow.execution_date row = Some (TaskInstance.execution_date ti)
    ∧ latest_successful_run s r
    ∧ DagRun.dag_id r = TaskInstance.dag_id ti
    ∧ DagRun.execution_date r = TaskInstance.execution_date ti
    ∧ ti0 ∈ task_instance s ∧ finished_success ti0
    ∧ TaskInstance.dag_id ti0 = TaskInstance.dag_id ti
    ∧ TaskInstance.task_id ti0 = TaskInstance.task_id ti
    ∧ TaskInstance.execution_date ti0 = TaskInstance.execution_date ti
    ∧ ∀ ti', ti' ∈ task_instance s →
             TaskInstance.dag_id ti' = TaskInstance.dag_id ti →
             TaskInstance.task_id ti' = TaskInstance.task_id ti →
             finished_success ti' →
             TaskInstance.execution_date ti' ≤ TaskInstance.execution_date ti.
Proof.
  unfold task_duration_info, task_latest_execution_dt. intros Hrow.
  apply list_elem_of_fmap in Hrow as ([[[d t] e] ti] & -> & Hj).
  apply elem_of_join in Hj as (Hq & Hti & Hd & Ht & He). simpl in Hd, Ht, He.
  apply list_elem_of_fmap in Hq as ([[[d0 t0] e0] [d' e']] & E & Hj).
  simpl in E. injection E as <- <- <-.
  apply elem_of_join in Hj as (Hq & Hm & Hd' & He'). simpl in Hd', He'. subst d'.
  apply task_duration_query_spec in Hq
    as (ti0 & Hti0 & Hf0 & Hd0 & Ht0 & -> & Hmax0).
  apply max_execution_dt_spec in Hm as (r & Hr & Hc & Hrd & -> & Hmax).
  simpl in He, He'.
  exists ti, r, ti0. simpl. rewrite He, Hd, Ht.
  do 6 (split; [done|]). split; [|split; [done|split; [done|]]].
  - split; [done|]. split; [done|]. intros r' Hr' Hd' Hc'.
    apply Hmax; [done | congruence | done].
  - do 5 (split; [done|]). done.
Qed.

Lemma task_duration_info_rows_witness :
  TaskDurationRow.mk "etl_daily" "extract" (Some 2000000) (Some 50000000) (Some 0)
    ∈ task_duration_info store_one_success
  ∧ ∃ ti r ti0,
    ti ∈ task_instance store_one_success
    ∧ "etl_daily" = TaskInstance.dag_id ti
    ∧ "extract" = TaskInstance.task_id ti
    ∧ Some 2000000 = TaskInstance.start_date ti
    ∧ Some 50000000 = TaskInstance.end_date ti
    ∧ Some 0 = Some (TaskInstance.execution_date ti)
    ∧ latest_successful_run store_one_success r
    ∧ DagRun.dag_id r = TaskInstance.dag_id ti
    ∧ DagRun.execution_date r = TaskInstance.execution_date ti
    ∧ ti0 ∈ task_instance store_one_success ∧ finished_success ti0
    ∧ TaskInstance.dag_id ti0 = TaskInstance.dag_id ti
    ∧ TaskInstance.task_id ti0 = TaskInstance.task_id ti
    ∧ TaskInstance.execution_date ti0 = TaskInstance.execution_date ti
    ∧ ∀ ti', ti' ∈ task_instance store_one_success →
             TaskInstance.dag_id ti' = TaskInstance.dag_id ti →
             TaskInstance.task_id ti' = TaskInstance.task_id ti →
             finished_success ti' →
             TaskInstance.execution_date ti' ≤ TaskInstance.execution_date ti.
Proof.
  assert (TaskDurationRow.mk "etl_daily" "extract" (Some 2000000)
            (Some 50000000) (Some 0) ∈ task_duration_info store_one_success)
    as Hrow.
  { vm_compute. apply list_elem_of_here. }
  split; [exact Hrow|].
  exact (task_duration_info_rows store_one_success _ Hrow).
Defined.

(** ** Scheduler delays *)

(** The first row of a descending order is one that no row exceeds. *)
Lemma insert_desc_head {A} (key : A → Z) a l x rest :
  (∀ x' rest', l = x' :: rest' → ∀ y, y ∈ l → key y ≤ key x') →
  insert_desc key a l = x :: rest →
  ∀ y, y ∈ a :: l → key y ≤ key x.
Proof.
  destruct l as [|b l]; simpl.
  - intros _ [= <- <-] y Hy. apply list_elem_of_singleton in Hy as ->. lia.
  - intros Hhead. specialize (Hhead b l eq_refl). case_decide.
    + intros [= <- <-] y [->|Hy]%elem_of_cons; [lia|].
      specialize (Hhead y Hy). lia.
    + intros [= <- <-] y [->|Hy]%elem_of_cons; [lia | by apply Hhead].
Qed.

Lemma order_by_desc_head {A} (key : A → Z) l x rest :
  order_by_desc key l = x :: rest → ∀ y, y ∈ l → key y ≤ key x.
Proof.
  revert x rest. induction l as [|a l IH]; intros x rest; [done|]. simpl.
  intros E y Hy.
  assert (∀ y, y ∈ a :: order_by_desc key l → key y ≤ key x) as Hall.
  { apply (insert_desc_head key a (order_by_desc key l) x rest); [|done].
    intros x' rest' E' y' Hy'. apply (IH x' rest' E').
    by apply (elem_of_order_by_desc key). }
  apply Hall. apply elem_of_cons in Hy as [->|Hy]; [by left|right].
  by apply (elem_of_order_by_desc key).
Qed.

(** [ORDER BY key DESC LIMIT 1]: nothing when there is no row, otherwise
    one row, which no row exceeds. *)
Lemma take_1_order_by_desc {A} (key : A → Z) (l : list A) :
  (l = [] ∧ take 1 (order_by_desc key l) = [])
  ∨ ∃ x, take 1 (order_by_desc key l) = [x] ∧ x ∈ l
         ∧ ∀ y, y ∈ l → key y ≤ key x.
Proof.
  destruct l as [|a l]; [by left|right].
  destruct (order_by_desc key (a :: l)) as [|x rest] eqn:E.
  - assert (a ∈ order_by_desc key (a :: l)) as Ha
      by (apply elem_of_order_by_desc; by left).
    rewrite E in Ha. by apply elem_of_nil in Ha.
  - exists x. split; [done|]. split.
    + apply (elem_of_order_by_desc key). rewrite E. by left.
    + by apply (order_by_desc_head key _ x rest).
Qed.

(** X5. [get_dag_scheduler_delay] returns at most one row: none exactly
    when the canary workflow has no run, otherwise the row of a canary run
    whose execution date no canary run exceeds, whatever the runs of the
    other workflows. *)
Theorem dag_scheduler_delay_rows s :
  (dag_scheduler_delay s = []
   ∧ ∀ r, r ∈ dag_run s → DagRun.dag_id r ≠ CANARY_DAG)
  ∨ ∃ r, dag_scheduler_delay s
         = [DagDelayRow.mk CANARY_DAG (DagRun.execution_date r)
                           (DagRun.start_date r)]
         ∧ r ∈ dag_run s ∧ DagRun.dag_id r = CANARY_DAG
         ∧ ∀ r', r' ∈ dag_run s → DagRun.dag_id r' = CANARY_DAG →
                 DagRun.execution_date r' ≤ DagRun.execution_date r.
Proof.
  unfold dag_scheduler_delay.
  destruct (take_1_order_by_desc DagRun.execution_date
              (filter (λ r, DagRun.dag_id r = CANARY_DAG) (dag_run s)))
    as [[Hnil ->]|(r & -> & Hr & Hmax)].
  - left. split; [done|]. intros r Hr Hd.
    assert (r ∈ filter (λ r, DagRun.dag_id r = CANARY_DAG) (dag_run s)) as Hin
      by (by apply list_elem_of_filter).
    rewrite Hnil in Hin. by apply elem_of_nil in Hin.
  - right. apply list_elem_of_filter in Hr as [Hd Hr]. exists r.
    simpl. rewrite Hd. do 3 (split; [done|]). intros r' Hr' Hd'.
    apply Hmax. by apply list_elem_of_filter.
Qed.

(** [max(col)] over a nullable column. *)
Lemma sql_max_some l m :
  sql_max l = Some m → Some m ∈ l ∧ ∀ x, Some x ∈ l → x ≤ m.
Proof.
  unfold sql_max.
  assert (∀ x, x ∈ non_null l ↔ Some x ∈ l) as Hnn.
  { intros x. unfold non_null. rewrite list_elem_of_omap. split.
    - by intros ([y|] & Hy & [= ->]).
    - intros Hx. by exists (Some x). }
  destruct (non_null l) as [|a xs] eqn:E; [done|]. intros [= <-].
  destruct (foldr_max_spec a xs) as (Hin & Ha & Hall). split.
  - apply Hnn. destruct Hin as [->|Hin]; [by left | by right].
  - intros x Hx. apply Hnn in Hx.
    apply elem_of_cons in Hx as [->|Hx]; [done | by apply Hall].
Qed.

(** X6. Every row of [get_task_scheduler_delay] has a queue and a start date
    that are not NULL: the queue of a canary task instance that has a
    queued time, and the latest start among such canary task instances of
    that queue. Its queued time and execution date are those of a task
    instance of that queue that started at that instant, of whatever
    workflow. *)
Theorem task_scheduler_delay_rows s row :
  row ∈ task_scheduler_delay s →
  ∃ q st c ti,
    TaskDelayRow.queue row = Some q ∧ TaskDelayRow.start_date row = Some st
    ∧ c ∈ task_instance s ∧ canary_queued c
    ∧ TaskInstance.queue c = Some q ∧ TaskInstance.start_date c = Some st
    ∧ (∀ c' x, c' ∈ task_instance s → canary_queued c' →
               TaskInstance.queue c' = Some q →
               TaskInstance.start_date c' = Some x → x ≤ st)
    ∧ ti ∈ task_instance s
    ∧ TaskInstance.queue ti = Some q ∧ TaskInstance.start_date ti = Some st
    ∧ TaskDelayRow.queued_dttm row = TaskInstance.queued_dttm ti
    ∧ TaskDelayRow.execution_date row = TaskInstance.execution_date ti.
Proof.
  unfold task_scheduler_delay, task_delay_status_query. intros Hrow.
  apply list_elem_of_fmap in Hrow as ([[q ms] ti] & -> & Hj).
  apply elem_of_join in Hj as (Hq & Hti & Hqq & Hss). simpl in Hqq, Hss.
  destruct (TaskInstance.queue ti) as [q'|] eqn:Etq; [|done].
  destruct q as [q|]; [|done]. simpl in Hqq. subst q'.
  destruct (TaskInstance.start_date ti) as [st'|] eqn:Ets; [|done].
  destruct ms as [st|]; [|done]. simpl in Hss. subst st'.
  apply list_elem_of_fmap in Hq as ([q0 g] & [= E1 E2] & Hg). subst q0.
  apply elem_of_group_by in Hg as [_ ->].
  symmetry in E2. apply sql_max_some in E2 as [Hin Hmax].
  apply list_elem_of_fmap in Hin as (c & Hcs & Hc).
  apply list_elem_of_filter in Hc as [Hcq Hc].
  apply list_elem_of_filter in Hc as [Hcc Hc].
  exists q, st, c, ti. simpl. do 6 (split; [done|]).
  split; [|done]. intros c' x Hc' Hcc' Hcq' Hcs'. apply Hmax.
  apply list_elem_of_fmap. exists c'. split; [done|].
  apply list_elem_of_filter. split; [done|]. by apply list_elem_of_filter.
Qed.

Lemma task_scheduler_delay_rows_witness :
  TaskDelayRow.mk (Some "default") 0 (Some 40000000) (Some 100000000)
    ∈ task_scheduler_delay store_shared_queue
  ∧ ∃ q st c ti,
    Some "default" = Some q ∧ Some 100000000 = Some st
    ∧ c ∈ task_instance store_shared_queue ∧ canary_queued c
    ∧ TaskInstance.queue c = Some q ∧ TaskInstance.start_date c = Some st
    ∧ (∀ c' x, c' ∈ task_instance store_shared_queue → canary_queued c' →
               TaskInstance.queue c' = Some q →
               TaskInstance.start_date c' = Some x → x ≤ st)
    ∧ ti ∈ task_instance store_shared_queue
    ∧ TaskInstance.queue ti = Some q ∧ TaskInstance.start_date ti = Some st
    ∧ Some 40000000 = TaskInstance.queued_dttm ti
    ∧ 0 = TaskInstance.execution_date ti.
Proof.
  assert (TaskDelayRow.mk (Some "default") 0 (Some 40000000) (Some 100000000)
            ∈ task_scheduler_delay store_shared_queue) as Hrow.
  { vm_compute. apply list_elem_of_further, list_elem_of_here. }
  split; [exact Hrow|].
  exact (task_scheduler_delay_rows store_shared_queue _ Hrow).
Defined.

(** * Scrapes of a store that answers every statement *)

(** A scheduler-delay loop, exactly: a [TypeError] as soon as a row misses
    a date, otherwise one sample per row. *)
Lemma for_each_delay_exact {A} (l : list A) (x y : A → option Z) lbl f :
  for_each l (Family f) (λ a v,
    td ← sub (x a) (y a); add_metric v (lbl a) (total_seconds td))
  = match mapM (λ a, delay_sample (name f) (zip (labelnames f) (lbl a))
                                  (x a) (y a)) l with
    | Some smps => Ok (Family (mkGauge (name f) (documentation f)
                                       (labelnames f) (samples f ++ smps)))
    | None => Raise TypeError
    end.
Proof.
  revert f. induction l as [|a l IH]; intros f.
  - simpl. rewrite app_nil_r. by destruct f.
  - cbn [for_each mapM]. destruct (x a) as [xa|], (y a) as [ya|]; simpl; try done.
    rewrite IH. simpl.
    destruct (mapM _ l) as [smps|]; simpl; [|done]. by rewrite <- app_assoc.
Qed.

Ltac delay_loop_exact :=
  lazymatch goal with
  | |- context [for_each ?l (Family ?f)
                  (λ a v, mbind (λ td, add_metric v (@?lbl a) _)
                                (sub (@?x a) (@?y a)))] =>
      let H := fresh "Hloop" in
      pose proof (for_each_delay_exact l x y lbl f) as H;
      cbv beta zeta in H; rewrite H; clear H
  end.

(** A branch in which a statement is refused, the store being healthy. *)
Ltac unhealthy Hw :=
  lazymatch goal with
  | H : refused _ ?q = true |- _ =>
      let Hq := fresh in
      pose proof (Hw q) as Hq; cbv [healthy closed log refused] in H, Hq;
      congruence
  end.

Section Healthy.
Variable date_str : Z → string.

Lemma collect_healthy w :
  healthy w → (collect date_str w).1 = scrape (db w).
Proof.
  intros Hw.
  enough (sat (collect date_str) w (λ ys r _, (ys, r) = scrape (db w))) as H.
  { unfold sat in H. by destruct (collect date_str w) as [[ys r] w']. }
  unfold_collect.
  gstep. { unhealthy Hw. }
  gstep. rewrite for_each_add_metric.
  gstep. gstep. { unhealthy Hw. }
  gstep. unfold scrape.
  destruct (task_duration_info (db w)) as [|row rest].
  2: { cbn [for_each]. unfold duration_error.
       destruct (sub (TaskDurationRow.end_date row) _); simpl; reflexivity. }
  cbn [for_each].
  gstep. gstep. gstep. { unhealthy Hw. }
  rewrite for_each_add_metric.
  gstep. gstep. gstep. { unhealthy Hw. }
  gstep. rewrite for_each_add_metric.
  gstep. gstep. { unhealthy Hw. }
  gstep. cbn [db closed log].
  destruct (dag_duration_info (db w)) as [|row rest].
  2: { cbn [for_each]. unfold duration_error.
       destruct (sub (DagDurationRow.end_date row) _); simpl; reflexivity. }
  cbn [for_each].
  gstep. gstep. { unhealthy Hw. }
  gstep. cbn [db closed log]. delay_loop_exact.
  change (mapM _ (dag_scheduler_delay (db w)))
    with (mapM dag_delay_sample (dag_scheduler_delay (db w))).
  destruct (mapM dag_delay_sample _) as [d|]; [|cbn beta iota; reflexivity].
  gstep. gstep. { unhealthy Hw. }
  gstep. cbn [db closed log]. delay_loop_exact.
  change (mapM _ (task_scheduler_delay (db w)))
    with (mapM task_delay_sample (task_scheduler_delay (db w))).
  destruct (mapM task_delay_sample _) as [t|]; [|cbn beta iota; reflexivity].
  gstep. gstep. { unhealthy Hw. }
  gstep. simpl. gstep. reflexivity.
Qed.

(** A scrape that completes had every statement answered. *)
Lemma collect_ok_healthy w : outcome date_str w = Ok tt → healthy w.
Proof.
  change (sat (collect date_str) w (λ _ r _, r = Ok tt → healthy w)).
  unfold_collect.
  gstep; [done|]. gstep. rewrite for_each_add_metric.
  gstep. gstep; [done|]. gstep. raising_loop; [|done].
  gstep. gstep. gstep; [done|]. rewrite for_each_add_metric.
  gstep. gstep. gstep; [done|]. gstep. rewrite for_each_add_metric.
  gstep. gstep; [done|]. gstep. raising_loop; [|done].
  gstep. gstep; [done|]. gstep. delay_loop; [done|].
  gstep. gstep; [done|]. gstep. delay_loop; [done|].
  gstep. gstep; [done|]. gstep. simpl. gstep.
  intros _ q. by destruct q.
Qed.

End Healthy.

Lemma yielded_outcome_healthy date_str w :
  healthy w →
  yielded date_str w = (scrape (db w)).1 ∧ outcome date_str w = (scrape (db w)).2.
Proof.
  intros Hw. unfold yielded, outcome. by rewrite (collect_healthy date_str w Hw).
Qed.

Lemma duration_error_cases e s :
  duration_error e s = match e, s with
                       | Some _, Some _ => AttributeError
                       | _, _ => TypeError
                       end.
Proof. by destruct e, s. Qed.

Lemma task_delay_row_start s row :
  row ∈ task_scheduler_delay s → is_Some (TaskDelayRow.start_date row).
Proof.
  unfold task_scheduler_delay. intros Hrow.
  apply list_elem_of_fmap in Hrow as ([[q ms] ti] & -> & Hj).
  apply elem_of_join in Hj as (_ & _ & _ & Hss). simpl in *.
  destruct (TaskInstance.start_date ti), ms; naive_solver.
Qed.

Lemma mapM_dag_delay_sample_is_Some rows :
  is_Some (mapM dag_delay_sample rows)
  ↔ Forall (λ row, is_Some (DagDelayRow.start_date row)) rows.
Proof.
  rewrite mapM_is_Some, !Forall_forall. split; intros H row Hrow.
  - specialize (H row Hrow). unfold dag_delay_sample, delay_sample, compose in H.
    destruct (DagDelayRow.start_date row); [by eexists | by destruct H].
  - destruct (H row Hrow) as [st Hst].
    unfold dag_delay_sample, delay_sample, compose. rewrite Hst. by eexists.
Qed.

Lemma mapM_task_delay_sample_is_Some s :
  is_Some (mapM task_delay_sample (task_scheduler_delay s))
  ↔ Forall (λ row, is_Some (TaskDelayRow.queued_dttm row))
           (task_scheduler_delay s).
Proof.
  rewrite mapM_is_Some, !Forall_forall. split; intros H row Hrow.
  - specialize (H row Hrow). unfold task_delay_sample, delay_sample, compose in H.
    destruct (TaskDelayRow.start_date row), (TaskDelayRow.queued_dttm row);
      destruct H; by eauto.
  - destruct (task_delay_row_start s row Hrow) as [st Hst].
    destruct (H row Hrow) as [qd Hqd].
    unfold task_delay_sample, delay_sample, compose. rewrite Hst, Hqd. by eexists.
Qed.

(** X7. A scrape completes exactly when the store answers all eight
    statements, both duration queries return no row, the canary run
    returned by the DAG-level delay query has a start date, and every row of
    the task-level delay query has a queued time. *)
Theorem scrape_completes_iff date_str w :
  outcome date_str w = Ok tt
  ↔ healthy w
    ∧ task_duration_info (db w) = [] ∧ dag_duration_info (db w) = []
    ∧ Forall (λ row, is_Some (DagDelayRow.start_date row))
             (dag_scheduler_delay (db w))
    ∧ Forall (λ row, is_Some (TaskDelayRow.queued_dttm row))
             (task_scheduler_delay (db w)).
Proof.
  rewrite <- mapM_dag_delay_sample_is_Some, <- mapM_task_delay_sample_is_Some.
  split.
  - intros Hok. pose proof (collect_ok_healthy date_str w Hok) as Hw.
    split; [done|].
    destruct (yielded_outcome_healthy date_str w Hw) as [_ Ho].
    rewrite Hok in Ho. unfold scrape in Ho.
    destruct (task_duration_info (db w)); [|done].
    destruct (dag_duration_info (db w)); [|done].
    destruct (mapM dag_delay_sample _); [|done].
    destruct (mapM task_delay_sample _); [|done]. by eauto.
  - intros (Hw & Ht & Hd & [d Hdd] & [t Htd]).
    destruct (yielded_outcome_healthy date_str w Hw) as [_ ->].
    unfold scrape. by rewrite Ht, Hd, Hdd, Htd.
Qed.

(** X8. On a store that answers every statement, a first row of the
    task-duration query stops the scrape after the task-status family:
    with an [AttributeError] when the row has both dates ([add_metric] is
    looked up on the float), with a [TypeError] when one of them is NULL. *)
Theorem task_duration_row_stops_scrape date_str w row rest :
  healthy w → task_duration_info (db w) = row :: rest →
  yielded date_str w = take 1 (families (db w) [] [])
  ∧ outcome date_str w
    = Raise (match TaskDurationRow.end_date row, TaskDurationRow.start_date row with
             | Some _, Some _ => AttributeError
             | _, _ => TypeError
             end).
Proof.
  intros Hw Hrows. destruct (yielded_outcome_healthy date_str w Hw) as [-> ->].
  unfold scrape. rewrite Hrows. by rewrite duration_error_cases.
Qed.

(** X9. On a store that answers every statement and has no task-duration
    row, a first row of the DAG-run-duration query stops the scrape after
    the fourth family (task status, task duration, failure count, DAG
    status): [AttributeError] when the row has both dates, [TypeError] when
    its start date (the earliest start of the run's task instances) or its
    end date is NULL. *)
Theorem dag_duration_row_stops_scrape date_str w row rest :
  healthy w → task_duration_info (db w) = [] →
  dag_duration_info (db w) = row :: rest →
  yielded date_str w = take 4 (families (db w) [] [])
  ∧ outcome date_str w
    = Raise (match DagDurationRow.end_date row, DagDurationRow.start_date row with
             | Some _, Some _ => AttributeError
             | _, _ => TypeError
             end).
Proof.
  intros Hw Ht Hrows. destruct (yielded_outcome_healthy date_str w Hw) as [-> ->].
  unfold scrape. rewrite Ht, Hrows. by rewrite duration_error_cases.
Qed.

(** X10. With no duration row, a canary run that has not started (its start
    date is NULL) and is the one returned by the DAG-level delay query makes
    the scrape raise [TypeError] after five families: no delay and no
    queued-task count is emitted. *)
Theorem unstarted_canary_run_stops_scrape date_str w row :
  healthy w → task_duration_info (db w) = [] → dag_duration_info (db w) = [] →
  row ∈ dag_scheduler_delay (db w) → DagDelayRow.start_date row = None →
  yielded date_str w = take 5 (families (db w) [] [])
  ∧ outcome date_str w = Raise TypeError.
Proof.
  intros Hw Ht Hd Hrow Hstart.
  destruct (yielded_outcome_healthy date_str w Hw) as [-> ->].
  unfold scrape. rewrite Ht, Hd.
  destruct (mapM dag_delay_sample _) as [d|] eqn:E; [|done].
  assert (is_Some (mapM dag_delay_sample (dag_scheduler_delay (db w)))) as Hs
    by (by rewrite E).
  apply mapM_dag_delay_sample_is_Some in Hs. rewrite Forall_forall in Hs.
  destruct (Hs row Hrow) as [st Hst]. congruence.
Qed.

(** X11. With no duration row and a started canary run, a row of the
    task-level delay query whose queued time is NULL makes the scrape raise
    [TypeError] after six families, the DAG-level delay being the last one
    yielded. *)
Theorem null_queued_time_stops_scrape date_str w d row :
  healthy w → task_duration_info (db w) = [] → dag_duration_info (db w) = [] →
  mapM dag_delay_sample (dag_scheduler_delay (db w)) = Some d →
  row ∈ task_scheduler_delay (db w) → TaskDelayRow.queued_dttm row = None →
  yielded date_str w = take 6 (families (db w) d [])
  ∧ outcome date_str w = Raise TypeError.
Proof.
  intros Hw Ht Hd Hdd Hrow Hq.
  destruct (yielded_outcome_healthy date_str w Hw) as [-> ->].
  unfold scrape. rewrite Ht, Hd, Hdd.
  destruct (mapM task_delay_sample _) as [t|] eqn:E; [|done].
  assert (is_Some (mapM task_delay_sample (task_scheduler_delay (db w)))) as Hs
    by (by rewrite E).
  apply mapM_task_delay_sample_is_Some in Hs. rewrite Forall_forall in Hs.
  destruct (Hs row Hrow) as [qd Hqd]. congruence.
Qed.

(** X12. A scrape that completes yields exactly the eight families of
    [families]: one sample per row of the task-status, failure-count and
    DAG-status queries, none for the two durations, one sample per row of
    each delay query, worth start − execution date (DAG level) and
    start − queued time (task level) in seconds whatever their sign, and
    the number of queued task instances. *)
Theorem completed_scrape_snapshot date_str w :
  outcome date_str w = Ok tt →
  ∃ d t,
    mapM dag_delay_sample (dag_scheduler_delay (db w)) = Some d
    ∧ mapM task_delay_sample (task_scheduler_delay (db w)) = Some t
    ∧ yielded date_str w = families (db w) d t.
Proof.
  intros Hok. pose proof (collect_ok_healthy date_str w Hok) as Hw.
  destruct (yielded_outcome_healthy date_str w Hw) as [Hy Ho].
  rewrite Hok in Ho. rewrite Hy. unfold scrape in *.
  destruct (task_duration_info (db w)); [|done].
  destruct (dag_duration_info (db w)); [|done].
  destruct (mapM dag_delay_sample _) as [d|]; [|done].
  destruct (mapM task_delay_sample _) as [t|]; [|done]. by exists d, t.
Qed.

Lemma healthy_world_of s : healthy (world_of s).
Proof. by intros q. Qed.

Lemma task_duration_row_stops_scrape_witness :
  (healthy (world_of store_one_success)
   ∧ task_duration_info (db (world_of store_one_success))
     = [TaskDurationRow.mk "etl_daily" "extract" (Some 2000000)
                           (Some 50000000) (Some 0)])
  ∧ yielded any_date_str (world_of store_one_success)
    = take 1 (families (db (world_of store_one_success)) [] [])
  ∧ outcome any_date_str (world_of store_one_success) = Raise AttributeError.
Proof.
  split; [split; [apply healthy_world_of | reflexivity]|].
  apply (task_duration_row_stops_scrape any_date_str (world_of store_one_success)
           (TaskDurationRow.mk "etl_daily" "extract" (Some 2000000)
                               (Some 50000000) (Some 0)) []);
    [apply healthy_world_of | reflexivity].
Defined.

Lemma dag_duration_row_stops_scrape_witness :
  (healthy (world_of store_running_task)
   ∧ task_duration_info (db (world_of store_running_task)) = []
   ∧ dag_duration_info (db (world_of store_running_task))
     = [DagDurationRow.mk "etl_daily" (Some 2000000) (Some 60000000)])
  ∧ yielded any_date_str (world_of store_running_task)
    = take 4 (families (db (world_of store_running_task)) [] [])
  ∧ outcome any_date_str (world_of store_running_task) = Raise AttributeError.
Proof.
  split; [split; [apply healthy_world_of | split; reflexivity]|].
  apply (dag_duration_row_stops_scrape any_date_str (world_of store_running_task)
           (DagDurationRow.mk "etl_daily" (Some 2000000) (Some 60000000)) []);
    [apply healthy_world_of | reflexivity | reflexivity].
Defined.

Lemma unstarted_canary_run_stops_scrape_witness :
  (healthy (world_of store_canary_not_started)
   ∧ task_duration_info (db (world_of store_canary_not_started)) = []
   ∧ dag_duration_info (db (world_of store_canary_not_started)) = []
   ∧ DagDelayRow.mk "canary_dag" 0 None
       ∈ dag_scheduler_delay (db (world_of store_canary_not_started))
   ∧ DagDelayRow.start_date (DagDelayRow.mk "canary_dag" 0 None) = None)
  ∧ yielded any_date_str (world_of store_canary_not_started)
    = take 5 (families (db (world_of store_canary_not_started)) [] [])
  ∧ outcome any_date_str (world_of store_canary_not_started) = Raise TypeError.
Proof.
  assert (DagDelayRow.mk "canary_dag" 0 None
            ∈ dag_scheduler_delay (db (world_of store_canary_not_started)))
    as Hrow.
  { vm_compute. apply list_elem_of_here. }
  split; [split; [apply healthy_world_of | by repeat split]|].
  apply (unstarted_canary_run_stops_scrape any_date_str
           (world_of store_canary_not_started)
           (DagDelayRow.mk "canary_dag" 0 None));
    [apply healthy_world_of | reflexivity | reflexivity | exact Hrow | reflexivity].
Defined.

Lemma null_queued_time_stops_scrape_witness :
  (healthy (world_of store_null_queued_time)
   ∧ task_duration_info (db (world_of store_null_queued_time)) = []
   ∧ dag_duration_info (db (world_of store_null_queued_time)) = []
   ∧ mapM dag_delay_sample
       (dag_scheduler_delay (db (world_of store_null_queued_time))) = Some []
   ∧ TaskDelayRow.mk (Some "default") 0 None (Some 100000000)
       ∈ task_scheduler_delay (db (world_of store_null_queued_time))
   ∧ TaskDelayRow.queued_dttm
       (TaskDelayRow.mk (Some "default") 0 None (Some 100000000)) = None)
  ∧ yielded any_date_str (world_of store_null_queued_time)
    = take 6 (families (db (world_of store_null_queued_time)) [] [])
  ∧ outcome any_date_str (world_of store_null_queued_time) = Raise TypeError.
Proof.
  assert (TaskDelayRow.mk (Some "default") 0 None (Some 100000000)
            ∈ task_scheduler_delay (db (world_of store_null_queued_time)))
    as Hrow.
  { vm_compute. apply list_elem_of_further, list_elem_of_here. }
  split; [split; [apply healthy_world_of | by repeat split]|].
  apply (null_queued_time_stops_scrape any_date_str
           (world_of store_null_queued_time) []
           (TaskDelayRow.mk (Some "default") 0 None (Some 100000000)));
    [apply healthy_world_of | reflexivity | reflexivity | reflexivity
    | exact Hrow | reflexivity].
Defined.

Lemma completed_scrape_snapshot_witness :
  outcome any_date_str (world_of store_shared_queue) = Ok tt
  ∧ ∃ d t,
      mapM dag_delay_sample
        (dag_scheduler_delay (db (world_of store_shared_queue))) = Some d
      ∧ mapM task_delay_sample
          (task_scheduler_delay (db (world_of store_shared_queue))) = Some t
      ∧ yielded any_date_str (world_of store_shared_queue)
        = families (db (world_of store_shared_queue)) d t.
Proof.
  split; [reflexivity|].
  apply (completed_scrape_snapshot any_date_str (world_of store_shared_queue)).
  reflexivity.
Defined.

Lemma successful_run_with_task_aborts_witness :
  (latest_successful_run (db (world_of store_one_success))
     (DagRun.mk "etl_daily" (Some "success") 0 (Some 1000000) (Some 60000000))
   ∧ TaskInstance.mk "etl_daily" "extract" 0 (Some "success") (Some "default")
       (Some 2000000) (Some 50000000) (Some 1000000)
     ∈ tasks_of_run (db (world_of store_one_success))
         (DagRun.mk "etl_daily" (Some "success") 0 (Some 1000000) (Some 60000000)))
  ∧ raised (world_of store_one_success)
           (outcome any_date_str (world_of store_one_success)).
Proof.
  assert (latest_successful_run (db (world_of store_one_success))
            (DagRun.mk "etl_daily" (Some "success") 0 (Some 1000000)
                       (Some 60000000))) as Hr.
  { split; [apply list_elem_of_here|]. split; [by split; [|eexists]|].
    intros r' Hr' _ _. simpl in Hr'.
    apply list_elem_of_singleton in Hr' as ->. simpl. lia. }
  assert (TaskInstance.mk "etl_daily" "extract" 0 (Some "success")
            (Some "default") (Some 2000000) (Some 50000000) (Some 1000000)
          ∈ tasks_of_run (db (world_of store_one_success))
              (DagRun.mk "etl_daily" (Some "success") 0 (Some 1000000)
                         (Some 60000000))) as Hti.
  { vm_compute. apply list_elem_of_here. }
  split; [by split|].
  exact (successful_run_with_task_aborts any_date_str
           (world_of store_one_success) _ _ Hr Hti).
Defined.

Lemma task_status_one_sample_per_row_witness :
  refused (world_of store_one_success) TaskStateInfo = false
  ∧ samples_of "airflow_task_status"
      (yielded any_date_str (world_of store_one_success))
    = map (λ r, mkSample "airflow_task_status"
                  [("dag_id", Some (TaskStateRow.dag_id r));
                   ("task_id", Some (TaskStateRow.task_id r));
                   ("owner", TaskStateRow.owners r);
                   ("status", Some (or_none (TaskStateRow.state r)))]
                  (inject_Z (TaskStateRow.value r)))
          (task_state_info (db (world_of store_one_success))).
Proof.
  split; [reflexivity|].
  apply (task_status_one_sample_per_row any_date_str (world_of store_one_success)).
  reflexivity.
Defined.

(** ** The status label *)

(** [task.state or 'none']: the state itself unless it is NULL or the
    empty string, which both give ["none"]. *)
Lemma or_none_spec state :
  or_none state ≠ ""
  ∧ (or_none state = "none"
     ↔ state = None ∨ state = Some "" ∨ state = Some "none")
  ∧ (∀ s, state = Some s → s ≠ "" → or_none state = s).
Proof.
  unfold or_none. destruct state as [s|].
  - case_decide as E.
    + subst s. split; [done|]. split; [naive_solver|]. by intros s [= <-].
    + split; [done|]. split; [|by intros s' [= <-]].
      split; [intros ->; auto | intros [?|[[= ->]|[= ->]]]; done].
  - split; [done|]. split; [naive_solver|]. done.
Qed.

(** X13. Unless the task-status statement is refused, the samples of the
    task-status family answer the rows of the task-status query one for one,
    and the status label of each is never empty: it is the row's state when
    that is a non-empty string, and ["none"] exactly when the state is NULL,
    empty, or literally ["none"], so that such rows of one task get samples
    with the same labels. *)
Theorem task_status_label_of_state date_str w :
  refused w TaskStateInfo = false →
  Forall2 (λ row smp,
             ∃ status,
               sample_labels smp
               = [("dag_id", Some (TaskStateRow.dag_id row));
                  ("task_id", Some (TaskStateRow.task_id row));
                  ("owner", TaskStateRow.owners row);
                  ("status", Some status)]
               ∧ status ≠ ""
               ∧ (status = "none"
                  ↔ TaskStateRow.state row = None
                    ∨ TaskStateRow.state row = Some ""
                    ∨ TaskStateRow.state row = Some "none")
               ∧ ∀ s, TaskStateRow.state row = Some s → s ≠ "" → status = s)
          (task_state_info (db w))
          (samples_of "airflow_task_status" (yielded date_str w)).
Proof.
  intros Hok.
  destruct (collect_shape date_str w) as (k & d & t & -> & Hk & _).
  specialize (Hk Hok). destruct k as [|k]; [lia|].
  assert (samples_of "airflow_task_status" (take (S k) (families (db w) d t))
          = map (λ r, mkSample "airflow_task_status"
                        [("dag_id", Some (TaskStateRow.dag_id r));
                         ("task_id", Some (TaskStateRow.task_id r));
                         ("owner", TaskStateRow.owners r);
                         ("status", Some (or_none (TaskStateRow.state r)))]
                        (inject_Z (TaskStateRow.value r)))
                (task_state_info (db w))) as ->.
  { do 8 (destruct k as [|k]; [simpl; by rewrite ?app_nil_r|]).
    simpl. by rewrite app_nil_r. }
  induction (task_state_info (db w)) as [|row rows IH]; simpl; constructor;
    [|exact IH].
  exists (or_none (TaskStateRow.state row)). split; [done|].
  apply or_none_spec.
Qed.

Lemma task_status_label_of_state_witness :
  refused (world_of store_one_success) TaskStateInfo = false
  ∧ Forall2 (λ row smp,
             ∃ status,
               sample_labels smp
               = [("dag_id", Some (TaskStateRow.dag_id row));
                  ("task_id", Some (TaskStateRow.task_id row));
                  ("owner", TaskStateRow.owners row);
                  ("status", Some status)]
               ∧ status ≠ ""
               ∧ (status = "none"
                  ↔ TaskStateRow.state row = None
                    ∨ TaskStateRow.state row = Some ""
                    ∨ TaskStateRow.state row = Some "none")
               ∧ ∀ s, TaskStateRow.state row = Some s → s ≠ "" → status = s)
          (task_state_info (db (world_of store_one_success)))
          (samples_of "airflow_task_status"
             (yielded any_date_str (world_of store_one_success))).
Proof.
  split; [reflexivity|].
  apply (task_status_label_of_state any_date_str (world_of store_one_success)).
  reflexivity.
Defined.

(** ** Sessions and statements of a whole scrape *)

Lemma trace_log e w : trace (log e w) = trace w ++ [e].
Proof. reflexivity. Qed.

(** Closing a branch of the analysis of the trace. *)
Ltac trace_done :=
  repeat (rewrite trace_closed || rewrite trace_log); rewrite <- ?app_assoc;
  eexists; split; [reflexivity|];
  split; [reflexivity|];
  split; [simpl; by eexists | first [done | intros _; reflexivity]].

Section Traces.
Variable date_str : Z → string.

Lemma collect_trace w :
  sat (collect date_str) w (λ _ r w',
    ∃ t, trace w' = trace w ++ t
         ∧ scope_open false t = false
         ∧ statements t `prefix_of` statement_order
         ∧ (r = Ok tt → statements t = statement_order)).
Proof.
  unfold_collect.
  gstep; [trace_done|]. gstep. rewrite for_each_add_metric.
  gstep. gstep; [trace_done|]. gstep. raising_loop; [|trace_done].
  gstep. gstep. gstep; [trace_done|]. rewrite for_each_add_metric.
  gstep. gstep. gstep; [trace_done|]. gstep. rewrite for_each_add_metric.
  gstep. gstep; [trace_done|]. gstep. raising_loop; [|trace_done].
  gstep. gstep; [trace_done|]. gstep. delay_loop; [trace_done|].
  gstep. gstep; [trace_done|]. gstep. delay_loop; [trace_done|].
  gstep. gstep; [trace_done|]. gstep. simpl. gstep. trace_done.
Qed.

End Traces.

(** X14. Whatever its outcome, a scrape leaves no session scope open: every
    scope it entered has been closed. It executes the statements of the
    eight operations in the order of [collect], each at most once, stopping
    at the first failure; a scrape that completes has executed all eight. *)
Theorem scrape_sessions_and_statements date_str w :
  ∃ t, trace (after date_str w) = trace w ++ t
       ∧ scope_open false t = false
       ∧ statements t `prefix_of` statement_order
       ∧ (outcome date_str w = Ok tt → statements t = statement_order).
Proof. exact (collect_trace date_str w). Qed.

(** ** The seven eager operations *)

(** X16. Each of the seven operations that end in [all()] or [count()]
    enters its scope, executes its one statement and closes the session,
    on success and on failure alike; it returns the rows of its query (the
    number of queued task instances for [get_num_queued_tasks]) when the
    store answers, and raises the store's error, after the close, when the
    statement is refused. *)
Theorem eager_operations_outcomes w :
  (get_dag_state_info w).1
  = (if refused w DagStateInfo then Raise (StoreError DagStateInfo)
     else Ok (dag_state_info (db w)))
  ∧ (get_dag_duration_info w).1
    = (if refused w DagDurationInfo then Raise (StoreError DagDurationInfo)
       else Ok (dag_duration_info (db w)))
  ∧ (get_task_state_info w).1
    = (if refused w TaskStateInfo then Raise (StoreError TaskStateInfo)
       else Ok (task_state_info (db w)))
  ∧ (get_task_duration_info w).1
    = (if refused w TaskDurationInfo then Raise (StoreError TaskDurationInfo)
       else Ok (task_duration_info (db w)))
  ∧ (get_dag_scheduler_delay w).1
    = (if refused w DagSchedulerDelay then Raise (StoreError DagSchedulerDelay)
       else Ok (dag_scheduler_delay (db w)))
  ∧ (get_task_scheduler_delay w).1
    = (if refused w TaskSchedulerDelay then Raise (StoreError TaskSchedulerDelay)
       else Ok (task_scheduler_delay (db w)))
  ∧ (get_num_queued_tasks w).1
    = (if refused w NumQueuedTasks then Raise (StoreError NumQueuedTasks)
       else Ok (Z.of_nat (length (queued_tasks (db w)))))
  ∧ trace (get_dag_state_info w).2
    = trace w ++ [SessionEnter; Execute DagStateInfo; SessionClose]
  ∧ trace (get_dag_duration_info w).2
    = trace w ++ [SessionEnter; Execute DagDurationInfo; SessionClose]
  ∧ trace (get_task_state_info w).2
    = trace w ++ [SessionEnter; Execute TaskStateInfo; SessionClose]
  ∧ trace (get_task_duration_info w).2
    = trace w ++ [SessionEnter; Execute TaskDurationInfo; SessionClose]
  ∧ trace (get_dag_scheduler_delay w).2
    = trace w ++ [SessionEnter; Execute DagSchedulerDelay; SessionClose]
  ∧ trace (get_task_scheduler_delay w).2
    = trace w ++ [SessionEnter; Execute TaskSchedulerDelay; SessionClose]
  ∧ trace (get_num_queued_tasks w).2
    = trace w ++ [SessionEnter; Execute NumQueuedTasks; SessionClose].
Proof.
  unfold get_dag_state_info, get_dag_duration_info, get_task_state_info,
    get_task_duration_info, get_dag_scheduler_delay, get_task_scheduler_delay.
  rewrite !run_scoped_all, run_get_num_queued_tasks. cbn [fst snd].
  rewrite !trace_closed. by repeat split.
Qed.
